(** * do-dash-pro: the to-do synchronisation layer

    A shallow embedding of the TypeScript sources

      - [src/types/todo.ts]            (data model),
      - [src/services/todoApi.ts]      (mock backend, [TodoApiService]),
      - [src/pages/Index.tsx]          (the page component that owns the
                                        task collection and its handlers),
      - [src/components/todo/AddToDoForm.tsx], [ToDoList.tsx], [ToDoItem.tsx]
                                        (the callers of the handlers),

    followed by the properties of the specification that concern them.

    Modelling conventions.
      - A JavaScript string is a [string]; each character stands for one code
        unit in the range U+0000..U+00FF.
      - A [Date] is the number of milliseconds since the epoch, a [Z].
      - [Math.random()] and the wall clock are oracles of the environment:
        two streams that the backend consumes one reading at a time.  A
        random number is a rational and is compared with 1/10 exactly.
        Nothing is assumed about the streams (the clock may stand still or
        go back) unless a statement says so.
      - [async] functions are run to completion one after the other; [delay]
        only postpones a continuation and has no effect on the state.  A
        promise is a computation whose outcome is [Resolved] or [Rejected].
      - The backend keeps, besides [mockTodos], a ghost list of the requests
        it has received; it is never read by the program and only serves to
        state that a call was, or was not, made. *)

From Stdlib Require Import List String Ascii Bool ZArith QArith Lia.
From Stdlib Require Import Permutation Sorted DecimalString.
From Stdlib Require DecimalZ DecimalPos.
Import ListNotations.

Local Open Scope string_scope.
Local Open Scope Z_scope.

(* ------------------------------------------------------------------ *)
(** ** JavaScript strings: [trim] and truthiness *)

Module JsString.

(** White space and line terminators of ECMAScript in U+0000..U+00FF:
    TAB, LF, VT, FF, CR, SP and NBSP. *)
Definition isWhiteSpace (c : ascii) : bool :=
  let n := nat_of_ascii c in
  ((n =? 9) || (n =? 10) || (n =? 11) || (n =? 12) || (n =? 13)
   || (n =? 32) || (n =? 160))%nat.

Fixpoint trimStart (s : string) : string :=
  match s with
  | EmptyString => EmptyString
  | String c s' => if isWhiteSpace c then trimStart s' else s
  end.

Fixpoint trimEnd (s : string) : string :=
  match s with
  | EmptyString => EmptyString
  | String c s' =>
      match trimEnd s' with
      | EmptyString =>
          if isWhiteSpace c then EmptyString else String c EmptyString
      | r => String c r
      end
  end.

(** [String.prototype.trim] *)
Definition trim (s : string) : string := trimEnd (trimStart s).

(** A string is truthy when it is not empty. *)
Definition truthy (s : string) : bool :=
  match s with EmptyString => false | String _ _ => true end.

(** [s || d] on strings. *)
Definition or_else (s d : string) : string := if truthy s then s else d.

(** [o || d] for [o : string | undefined]. *)
Definition opt_or_else (o : option string) (d : string) : string :=
  match o with Some s => or_else s d | None => d end.

(** [s || undefined] *)
Definition or_undefined (s : string) : option string :=
  if truthy s then Some s else None.

(** Truthiness of a value of type [string | undefined]. *)
Definition truthy_opt (o : option string) : bool :=
  match o with Some s => truthy s | None => false end.

(** [n.toString()] for an integer [n]. *)
Definition ofInt (n : Z) : string := NilZero.string_of_int (Z.to_int n).

End JsString.

(* ------------------------------------------------------------------ *)
(** ** Data model ([src/types/todo.ts]) *)

Definition Date := Z.

Record Todo := mkTodo {
  id : string;
  title : string;
  description : option string;      (* [description?: string] *)
  completed : bool;
  createdAt : Date;
  updatedAt : Date
}.

Module CreateTodoInput.
Record t := mk {
  title : string;
  description : option string
}.
End CreateTodoInput.

(** An object literal may carry an optional property explicitly set to
    [undefined] ([ToDoItem.handleSaveEdit] builds
    [description: editDescription.trim() || undefined]); object spread copies
    such a property like any other.  So [description] has three states:
    [None] (no such property), [Some None] (present, [undefined]) and
    [Some (Some s)].  [title] and [completed] are never passed as [undefined]
    by a caller in this repository, and [Todo] requires them: they are absent
    or carry a value. *)
Module UpdateTodoInput.
Record t := mk {
  title : option string;
  description : option (option string);
  completed : option bool
}.
End UpdateTodoInput.

Record ApiResponse (A : Type) := mkResponse {
  data : A;
  message : string;
  success : bool
}.
Arguments mkResponse {A}.
Arguments data {A}.
Arguments message {A}.
Arguments success {A}.

Inductive TodoFilter := ALL | ACTIVE | COMPLETED.

Inductive Operation := OpCreate | OpUpdate | OpDelete | OpFetch.

Record LoadingState := mkLoading {
  isLoading : bool;
  operation : option Operation;
  targetId : option string
}.

(** Error codes used by the backend. *)
Inductive ErrorCode :=
  FETCH_ERROR | CREATE_ERROR | UPDATE_ERROR | DELETE_ERROR | NOT_FOUND.

(** What a promise can be rejected with: an instance of the class [ApiError]
    or some other value. *)
Inductive Exn :=
| ApiError (msg : string) (code : ErrorCode)
| OtherError.

Inductive Outcome (A : Type) :=
| Resolved (a : A)
| Rejected (e : Exn).
Arguments Resolved {A}.
Arguments Rejected {A}.

Definition isResolved {A} (o : Outcome A) : bool :=
  match o with Resolved _ => true | Rejected _ => false end.

(* ------------------------------------------------------------------ *)
(** ** Arrays *)

Module JsArray.
Section Ops.
Context {A : Type}.

(** [findIndex]; [None] stands for the result [-1]. *)
Fixpoint findIndex (p : A -> bool) (l : list A) : option nat :=
  match l with
  | [] => None
  | x :: l' => if p x then Some 0%nat else option_map S (findIndex p l')
  end.

(** [l[i] = v] for an index within bounds. *)
Fixpoint assign (i : nat) (v : A) (l : list A) : list A :=
  match l, i with
  | [], _ => []
  | _ :: l', O => v :: l'
  | x :: l', S i' => x :: assign i' v l'
  end.

(** [l.splice(i, 1)] *)
Fixpoint splice1 (i : nat) (l : list A) : list A :=
  match l, i with
  | [], _ => []
  | _ :: l', O => l'
  | x :: l', S i' => x :: splice1 i' l'
  end.

(** [Array.prototype.sort] with a comparator [cmp] ([cmp a b <= 0] keeps [a]
    before [b]).  The sort is stable; for a consistent comparator its result
    is the stable sorted arrangement, computed here by insertion from the
    right. *)
Variable cmp : A -> A -> Z.

Fixpoint insert (x : A) (l : list A) : list A :=
  match l with
  | [] => [x]
  | y :: l' => if cmp x y <=? 0 then x :: y :: l' else y :: insert x l'
  end.

Definition sort (l : list A) : list A := fold_right insert [] l.

End Ops.
End JsArray.

(* ------------------------------------------------------------------ *)
(** ** The mock backend ([src/services/todoApi.ts]) *)

Inductive Request :=
| ReqGetAll
| ReqCreate (input : CreateTodoInput.t)
| ReqUpdate (id : string) (input : UpdateTodoInput.t)
| ReqDelete (id : string).

(** The module state of [todoApi.ts] and the environment it reads. *)
Record World := mkWorld {
  mockTodos : list Todo;
  randoms : nat -> Q;        (* successive results of [Math.random()] *)
  randomsRead : nat;
  clock : nat -> Z;          (* successive readings of the wall clock *)
  clockRead : nat;
  requests : list Request    (* ghost: requests received, oldest first *)
}.

Definition Api (A : Type) : Type := World -> Outcome A * World.

Module TodoApi.

Definition ret {A} (a : A) : Api A := fun w => (Resolved a, w).

Definition throw {A} (e : Exn) : Api A := fun w => (Rejected e, w).

Definition bind {A B} (m : Api A) (k : A -> Api B) : Api B :=
  fun w => match m w with
           | (Resolved a, w') => k a w'
           | (Rejected e, w') => (Rejected e, w')
           end.

Declare Scope api_scope.
Delimit Scope api_scope with api.
Notation "x <- m ;; k" := (bind m (fun x => k))
  (at level 61, m at next level, right associativity) : api_scope.
Notation "m ;; k" := (bind m (fun _ => k))
  (at level 61, right associativity) : api_scope.
Local Open Scope api_scope.

(** [Math.random()] *)
Definition mathRandom : Api Q := fun w =>
  (Resolved (randoms w (randomsRead w)),
   mkWorld (mockTodos w) (randoms w) (S (randomsRead w))
           (clock w) (clockRead w) (requests w)).

(** [Date.now()] and [new Date()] *)
Definition now : Api Date := fun w =>
  (Resolved (clock w (clockRead w)),
   mkWorld (mockTodos w) (randoms w) (randomsRead w)
           (clock w) (S (clockRead w)) (requests w)).

(** Reading and assigning the module variable [mockTodos]. *)
Definition readMock : Api (list Todo) := fun w => (Resolved (mockTodos w), w).

Definition writeMock (l : list Todo) : Api unit := fun w =>
  (Resolved tt,
   mkWorld l (randoms w) (randomsRead w) (clock w) (clockRead w) (requests w)).

Definition received (r : Request) : Api unit := fun w =>
  (Resolved tt,
   mkWorld (mockTodos w) (randoms w) (randomsRead w) (clock w) (clockRead w)
           (requests w ++ [r])).

(** [await delay()] *)
Definition delay : Api unit := ret tt.

Definition Qltb (x y : Q) : bool := negb (Qle_bool y x).

(** [const shouldSimulateError = () => Math.random() < 0.1] *)
Definition shouldSimulateError : Api bool :=
  r <- mathRandom ;; ret (Qltb r (1 # 10)).

(** The comparator of [getAllTodos]:
    [(a, b) => b.createdAt.getTime() - a.createdAt.getTime()] *)
Definition byCreatedAtDesc (a b : Todo) : Z := createdAt b - createdAt a.

Definition getAllTodos : Api (ApiResponse (list Todo)) :=
  received ReqGetAll ;;
  delay ;;
  fail <- shouldSimulateError ;;
  if fail : bool then
    throw (ApiError "Failed to fetch todos. Please check your connection."
                    FETCH_ERROR)
  else
    l <- readMock ;;
    ret (mkResponse (JsArray.sort byCreatedAtDesc l)
                    "Todos fetched successfully" true).

Definition createTodo (input : CreateTodoInput.t) : Api (ApiResponse Todo) :=
  received (ReqCreate input) ;;
  delay ;;
  fail <- shouldSimulateError ;;
  if fail : bool then
    throw (ApiError "Failed to create todo. Please try again." CREATE_ERROR)
  else
    idNow <- now ;;
    created <- now ;;
    updated <- now ;;
    let newTodo :=
      {| id := JsString.ofInt idNow;
         title := JsString.trim (CreateTodoInput.title input);
         description :=
           Some (JsString.opt_or_else
                   (option_map JsString.trim
                               (CreateTodoInput.description input)) "");
         completed := false;
         createdAt := created;
         updatedAt := updated |} in
    l <- readMock ;;
    writeMock (l ++ [newTodo]) ;;
    ret (mkResponse newTodo "Todo created successfully" true).

(** [{ ...todo, ...input, updatedAt: new Date() }] *)
Definition spread (todo : Todo) (input : UpdateTodoInput.t) (at_ : Date)
  : Todo :=
  {| id := id todo;
     title := match UpdateTodoInput.title input with
              | Some s => s | None => title todo end;
     description := match UpdateTodoInput.description input with
                    | Some d => d | None => description todo end;
     completed := match UpdateTodoInput.completed input with
                  | Some b => b | None => completed todo end;
     createdAt := createdAt todo;
     updatedAt := at_ |}.

Definition updateTodo (id0 : string) (input : UpdateTodoInput.t)
  : Api (ApiResponse Todo) :=
  received (ReqUpdate id0 input) ;;
  delay ;;
  fail <- shouldSimulateError ;;
  if fail : bool then
    throw (ApiError "Failed to update todo. Please try again." UPDATE_ERROR)
  else
    l <- readMock ;;
    match JsArray.findIndex (fun todo => String.eqb (id todo) id0) l with
    | None => throw (ApiError "Todo not found" NOT_FOUND)
    | Some todoIndex =>
        at_ <- now ;;
        let updatedTodo :=
          spread (nth todoIndex l (mkTodo "" "" None false 0 0)) input at_ in
        writeMock (JsArray.assign todoIndex updatedTodo l) ;;
        ret (mkResponse updatedTodo "Todo updated successfully" true)
    end.

Definition deleteTodo (id0 : string) : Api (ApiResponse unit) :=
  received (ReqDelete id0) ;;
  delay ;;
  fail <- shouldSimulateError ;;
  if fail : bool then
    throw (ApiError "Failed to delete todo. Please try again." DELETE_ERROR)
  else
    l <- readMock ;;
    match JsArray.findIndex (fun todo => String.eqb (id todo) id0) l with
    | None => throw (ApiError "Todo not found" NOT_FOUND)
    | Some todoIndex =>
        writeMock (JsArray.splice1 todoIndex l) ;;
        ret (mkResponse tt "Todo deleted successfully" true)
    end.

(** The initial contents of [mockTodos]. *)
Definition initialTodos : list Todo :=
  [ mkTodo "1" "Complete project documentation"
      (Some "Write comprehensive README and code comments for the portfolio project")
      false 1705312800000 1705312800000;
    mkTodo "2" "Review TypeScript best practices"
      (Some "Study advanced TypeScript patterns for better code organization")
      true 1705242600000 1705310100000;
    mkTodo "3" "Design system implementation"
      (Some "Create consistent UI components with Tailwind CSS")
      false 1705394700000 1705394700000 ].

End TodoApi.

(* ------------------------------------------------------------------ *)
(** ** The page component ([src/pages/Index.tsx]) *)

Module Toast.
Inductive Variant := default | destructive.
Record t := mk {
  title : string;
  description : string;
  variant : Variant
}.
End Toast.

Module Index.

(** The [useState] cells of [Index], and the notifications shown so far. *)
Record State := mkState {
  todos : list Todo;
  filter : TodoFilter;
  loadingState : LoadingState;
  isInitialLoading : bool;
  toasts : list Toast.t
}.

Record System := mkSystem {
  page : State;
  backend : World
}.

Definition App (A : Type) : Type := System -> Outcome A * System.

Definition ret {A} (a : A) : App A := fun s => (Resolved a, s).

Definition throw {A} (e : Exn) : App A := fun s => (Rejected e, s).

Definition bind {A B} (m : App A) (k : A -> App B) : App B :=
  fun s => match m s with
           | (Resolved a, s') => k a s'
           | (Rejected e, s') => (Rejected e, s')
           end.

Declare Scope app_scope.
Delimit Scope app_scope with app.
Notation "x <- m ;; k" := (bind m (fun x => k))
  (at level 61, m at next level, right associativity) : app_scope.
Notation "m ;; k" := (bind m (fun _ => k))
  (at level 61, right associativity) : app_scope.
Local Open Scope app_scope.

(** [try { body } catch (error) { handler } finally { fin }] *)
Definition tryCatchFinally {A} (body : App A) (handler : Exn -> App A)
  (fin : App unit) : App A :=
  fun s =>
    let (o, s1) := match body s with
                   | (Resolved a, s') => (Resolved a, s')
                   | (Rejected e, s') => handler e s'
                   end in
    match fin s1 with
    | (Resolved _, s2) => (o, s2)
    | (Rejected e, s2) => (Rejected e, s2)
    end.

(** [await todoApi.method(...)] *)
Definition await {A} (m : Api A) : App A := fun s =>
  let (o, w) := m (backend s) in (o, mkSystem (page s) w).

(** [Promise.all]: every promise of the array has been started and runs to
    its end, whatever the others do; the result is rejected with the first
    rejection when there is one. *)
Fixpoint promiseAll {A} (ps : list (App A)) : App (list A) :=
  fun s =>
    match ps with
    | [] => (Resolved [], s)
    | p :: ps' =>
        let (o, s1) := p s in
        let (os, s2) := promiseAll ps' s1 in
        (match o, os with
         | Rejected e, _ => Rejected e
         | Resolved _, Rejected e => Rejected e
         | Resolved a, Resolved l => Resolved (a :: l)
         end, s2)
    end.

Definition getTodos : App (list Todo) := fun s => (Resolved (todos (page s)), s).

(** [setTodos(prev => f(prev))] *)
Definition setTodos (f : list Todo -> list Todo) : App unit := fun s =>
  let p := page s in
  (Resolved tt,
   mkSystem (mkState (f (todos p)) (filter p) (loadingState p)
                     (isInitialLoading p) (toasts p)) (backend s)).

Definition setLoadingState (l : LoadingState) : App unit := fun s =>
  let p := page s in
  (Resolved tt,
   mkSystem (mkState (todos p) (filter p) l (isInitialLoading p) (toasts p))
            (backend s)).

Definition setIsInitialLoading (b : bool) : App unit := fun s =>
  let p := page s in
  (Resolved tt,
   mkSystem (mkState (todos p) (filter p) (loadingState p) b (toasts p))
            (backend s)).

Definition setFilter (f : TodoFilter) : App unit := fun s =>
  let p := page s in
  (Resolved tt,
   mkSystem (mkState (todos p) f (loadingState p) (isInitialLoading p)
                     (toasts p)) (backend s)).

Definition toast (t : Toast.t) : App unit := fun s =>
  let p := page s in
  (Resolved tt,
   mkSystem (mkState (todos p) (filter p) (loadingState p)
                     (isInitialLoading p) (toasts p ++ [t])) (backend s)).

(** [error instanceof ApiError ? error.message : fallback] *)
Definition errorMessage (error : Exn) (fallback : string) : string :=
  match error with
  | ApiError msg _ => msg
  | OtherError => fallback
  end.

(** [{ isLoading: false }] *)
Definition notLoading : LoadingState := mkLoading false None None.

(** The state of the component when it is mounted. *)
Definition initialState : State := mkState [] ALL notLoading true [].

(** The effect run on mount. *)
Definition fetchTodos : App unit :=
  tryCatchFinally
    (setIsInitialLoading true ;;
     response <- await TodoApi.getAllTodos ;;
     setTodos (fun _ => data response))
    (fun error =>
       toast (Toast.mk "Error"
                (errorMessage error
                   "Failed to load tasks. Please refresh the page.")
                Toast.destructive))
    (setIsInitialLoading false).

Definition handleCreateTodo (input : CreateTodoInput.t) : App unit :=
  setLoadingState (mkLoading true (Some OpCreate) None) ;;
  tryCatchFinally
    (response <- await (TodoApi.createTodo input) ;;
     setTodos (fun prev => data response :: prev) ;;
     toast (Toast.mk "Success" "Task created successfully!" Toast.default))
    (fun error =>
       toast (Toast.mk "Error"
                (errorMessage error "Failed to create task. Please try again.")
                Toast.destructive) ;;
       throw error)
    (setLoadingState notLoading).

Definition handleUpdateTodo (id0 : string) (input : UpdateTodoInput.t)
  : App unit :=
  setLoadingState (mkLoading true (Some OpUpdate) (Some id0)) ;;
  tryCatchFinally
    (response <- await (TodoApi.updateTodo id0 input) ;;
     setTodos (map (fun todo => if String.eqb (id todo) id0
                                then data response else todo)) ;;
     if JsString.truthy_opt (UpdateTodoInput.title input)
        || match UpdateTodoInput.description input with
           | Some d => JsString.truthy_opt d
           | None => false
           end
     then toast (Toast.mk "Success" "Task updated successfully!" Toast.default)
     else ret tt)
    (fun error =>
       toast (Toast.mk "Error"
                (errorMessage error "Failed to update task. Please try again.")
                Toast.destructive) ;;
       throw error)
    (setLoadingState notLoading).

Definition handleDeleteTodo (id0 : string) : App unit :=
  setLoadingState (mkLoading true (Some OpDelete) (Some id0)) ;;
  tryCatchFinally
    (await (TodoApi.deleteTodo id0) ;;
     setTodos (List.filter (fun todo => negb (String.eqb (id todo) id0))) ;;
     toast (Toast.mk "Success" "Task deleted successfully!" Toast.default))
    (fun error =>
       toast (Toast.mk "Error"
                (errorMessage error "Failed to delete task. Please try again.")
                Toast.destructive))
    (setLoadingState notLoading).

Definition handleBulkDelete : App unit :=
  current <- getTodos ;;
  let completedTodos := List.filter (fun todo => completed todo) current in
  setLoadingState (mkLoading true (Some OpDelete) None) ;;
  tryCatchFinally
    (promiseAll
       (map (fun todo => await (TodoApi.deleteTodo (id todo))) completedTodos) ;;
     setTodos (List.filter (fun todo => negb (completed todo))) ;;
     toast (Toast.mk "Success"
              (JsString.ofInt (Z.of_nat (List.length completedTodos))
               ++ " completed task(s) deleted!")
              Toast.default))
    (fun _ =>
       toast (Toast.mk "Error"
                "Failed to delete completed tasks. Please try again."
                Toast.destructive))
    (setLoadingState notLoading).

End Index.

(* ------------------------------------------------------------------ *)
(** ** The components that call the handlers *)

(** [src/components/todo/AddToDoForm.tsx] *)
Module AddToDoForm.

Record Form := mkForm {
  title : string;
  description : string;
  isExpanded : bool
}.

(** [handleSubmit]; the rejection of [onSubmit] is caught and logged to the
    console, the form is reset only when [onSubmit] resolves. *)
Definition handleSubmit (onSubmit : CreateTodoInput.t -> Index.App unit)
  (f : Form) : Index.System -> Form * Index.System :=
  fun s =>
    if negb (JsString.truthy (JsString.trim (title f))) then (f, s)
    else
      match onSubmit
              (CreateTodoInput.mk
                 (JsString.trim (title f))
                 (JsString.or_undefined (JsString.trim (description f)))) s
      with
      | (Resolved _, s') => (mkForm "" "" false, s')
      | (Rejected _, s') => (f, s')
      end.

End AddToDoForm.

(** [src/components/todo/ToDoList.tsx] *)
Module ToDoList.

Definition completedCount (todos : list Todo) : nat :=
  List.length (List.filter (fun todo => completed todo) todos).

Definition activeCount (todos : list Todo) : nat :=
  (List.length todos - completedCount todos)%nat.

Definition filteredTodos (todos : list Todo) (filter : TodoFilter)
  : list Todo :=
  List.filter
    (fun todo =>
       match filter with
       | ACTIVE => negb (completed todo)
       | COMPLETED => completed todo
       | _ => true
       end) todos.

(** [completedCount > 0]: the row with the button "Clear Completed" is
    rendered. *)
Definition bulkActionsShown (todos : list Todo) : bool :=
  (0 <? completedCount todos)%nat.

End ToDoList.

(** [src/components/todo/ToDoItem.tsx] *)
Module ToDoItem.

(** The argument of [onUpdate] in [handleToggleComplete]. *)
Definition toggleInput (todo : Todo) : UpdateTodoInput.t :=
  UpdateTodoInput.mk None None (Some (negb (completed todo))).

(** The argument of [onUpdate] in [handleSaveEdit]. *)
Definition saveEditInput (editTitle editDescription : string)
  : UpdateTodoInput.t :=
  UpdateTodoInput.mk
    (Some (JsString.trim editTitle))
    (Some (JsString.or_undefined (JsString.trim editDescription)))
    None.

(** The [useState] cells of [ToDoItem]. *)
Record EditState := mkEdit {
  isEditing : bool;
  editTitle : string;
  editDescription : string
}.

(** The cells when the item is first rendered for [todo]. *)
Definition initialEdit (todo : Todo) : EditState :=
  mkEdit false (title todo) (JsString.opt_or_else (description todo) "").

(** [const isItemLoading = isLoading && loadingOperation === todo.id] *)
Definition isItemLoading (isLoading : bool) (loadingOperation : option string)
  (todo : Todo) : bool :=
  isLoading
  && match loadingOperation with
     | Some x => String.eqb x (id todo)
     | None => false
     end.

Definition handleToggleComplete
  (onUpdate : string -> UpdateTodoInput.t -> Index.App unit)
  (todo : Todo) (isItemLoading : bool) : Index.System -> Index.System :=
  fun s =>
    if isItemLoading then s
    else snd (onUpdate (id todo) (toggleInput todo) s).

Definition handleEdit (todo : Todo) (e : EditState) : EditState :=
  mkEdit true (title todo) (JsString.opt_or_else (description todo) "").

(** [handleSaveEdit]; the editor is closed only when [onUpdate] resolves. *)
Definition handleSaveEdit
  (onUpdate : string -> UpdateTodoInput.t -> Index.App unit)
  (todo : Todo) (e : EditState) : Index.System -> EditState * Index.System :=
  fun s =>
    if negb (JsString.truthy (JsString.trim (editTitle e))) then (e, s)
    else
      match onUpdate (id todo)
                     (saveEditInput (editTitle e) (editDescription e)) s with
      | (Resolved _, s') =>
          (mkEdit false (editTitle e) (editDescription e), s')
      | (Rejected _, s') => (e, s')
      end.

Definition handleCancelEdit (todo : Todo) (e : EditState) : EditState :=
  mkEdit false (title todo) (JsString.opt_or_else (description todo) "").

Definition handleDelete (onDelete : string -> Index.App unit)
  (todo : Todo) (isItemLoading : bool) : Index.System -> Index.System :=
  fun s => if isItemLoading then s else snd (onDelete (id todo) s).

End ToDoItem.

(* ------------------------------------------------------------------ *)
(** ** Vocabulary of the properties *)

(** Failure injection fires at the next request: the next result of
    [Math.random()] is below [0.1]. *)
Definition fires (w : World) : bool :=
  TodoApi.Qltb (randoms w (randomsRead w)) (1 # 10).

(** The world once a request has been received and the failure draw made. *)
Definition drawn (r : Request) (w : World) : World :=
  mkWorld (mockTodos w) (randoms w) (S (randomsRead w))
          (clock w) (clockRead w) (requests w ++ [r]).

Definition hasId (id0 : string) (todo : Todo) : bool :=
  String.eqb (id todo) id0.

(** Some task of the list carries the identifier. *)
Definition present (id0 : string) (l : list Todo) : Prop :=
  exists todo, In todo l /\ id todo = id0.

(** Display order: [createdAt] descending. *)
Definition newerFirst (a b : Todo) : Prop := createdAt b <= createdAt a.

Definition sortedDesc (l : list Todo) : Prop := Sorted newerFirst l.

(** The task that [createTodo] builds in world [w]: three successive
    readings of the clock give the identifier, [createdAt] and [updatedAt]. *)
Definition newTodoIn (w : World) (input : CreateTodoInput.t) : Todo :=
  {| id := JsString.ofInt (clock w (clockRead w));
     title := JsString.trim (CreateTodoInput.title input);
     description :=
       Some (JsString.opt_or_else
               (option_map JsString.trim (CreateTodoInput.description input))
               "");
     completed := false;
     createdAt := clock w (S (clockRead w));
     updatedAt := clock w (S (S (clockRead w))) |}.

(** The clock of the world never goes back. *)
Definition monotone (w : World) : Prop :=
  forall m n : nat, (m <= n)%nat -> clock w m <= clock w n.

(** What holds of the collection [l] of the page and of the store [ms] of
    the backend along a run, [now] being the next reading of the clock:
    identifiers are unique on both sides, a task known to both is the same
    record on both, the collection is in display order, and no time stamp is
    later than [now]. *)
Definition wellKept (l ms : list Todo) (now : Z) : Prop :=
  NoDup (map id ms)
  /\ NoDup (map id l)
  /\ (forall T B, In T l -> In B ms -> id B = id T -> B = T)
  /\ sortedDesc l
  /\ (forall T, In T l \/ In T ms -> createdAt T <= now /\ updatedAt T <= now).

Definition invariant (s : Index.System) : Prop :=
  wellKept (Index.todos (Index.page s)) (mockTodos (Index.backend s))
           (clock (Index.backend s) (clockRead (Index.backend s))).

(** The identifier that the backend would give to a task created now is
    carried by no task yet. *)
Definition mintsFreshId (s : Index.System) : Prop :=
  let w := Index.backend s in
  ~ In (JsString.ofInt (clock w (clockRead w)))
       (map id (mockTodos w) ++ map id (Index.todos (Index.page s))).

(** The page and the backend hold the same tasks. *)
Definition synced (s : Index.System) : Prop :=
  forall T, In T (Index.todos (Index.page s))
            <-> In T (mockTodos (Index.backend s)).

(** The array of promises that [handleBulkDelete] hands to [Promise.all]. *)
Definition deletions (l : list Todo) : list (Index.App (ApiResponse unit)) :=
  map (fun todo => Index.await (TodoApi.deleteTodo (id todo))) l.

(** What the user can ask of the page: the fetch on mount, the four handlers
    called directly, and the submission of the add-task form (whose
    [onSubmit] is [handleCreateTodo]). *)
Inductive Intent :=
| FetchAll
| CreateTask (input : CreateTodoInput.t)
| UpdateTask (id0 : string) (input : UpdateTodoInput.t)
| DeleteTask (id0 : string)
| BulkDeleteCompleted
| SubmitForm (f : AddToDoForm.Form).

(** The system once the intent has settled. *)
Definition settle (i : Intent) (s : Index.System) : Index.System :=
  match i with
  | FetchAll => snd (Index.fetchTodos s)
  | CreateTask input => snd (Index.handleCreateTodo input s)
  | UpdateTask id0 input => snd (Index.handleUpdateTodo id0 input s)
  | DeleteTask id0 => snd (Index.handleDeleteTodo id0 s)
  | BulkDeleteCompleted => snd (Index.handleBulkDelete s)
  | SubmitForm f => snd (AddToDoForm.handleSubmit Index.handleCreateTodo f s)
  end.

(** The intents whose code assigns [loadingState]: all but the fetch on mount
    (it reports through [isInitialLoading]) and a submission that the form
    turns down. *)
Definition setsLoadingState (i : Intent) : bool :=
  match i with
  | FetchAll => false
  | SubmitForm f => JsString.truthy (JsString.trim (AddToDoForm.title f))
  | _ => true
  end.

(* ------------------------------------------------------------------ *)
(** ** Facts about strings and arrays *)

(** Closes the conjuncts that hold by computation or by a hypothesis. *)
Ltac by_cases :=
  repeat split; intros; simpl in *;
  first [assumption | discriminate | reflexivity | idtac].

Lemma trim_blank_falsy (s : string) :
  JsString.trim s = "" <-> JsString.truthy (JsString.trim s) = false.
Proof.
  destruct (JsString.trim s); simpl; split; congruence.
Qed.

Lemma or_else_empty (s : string) : JsString.or_else s "" = s.
Proof. destruct s; reflexivity. Qed.

Lemma findIndex_None {A} (p : A -> bool) (l : list A) :
  JsArray.findIndex p l = None <-> forall x, In x l -> p x = false.
Proof.
  induction l as [|a l IH]; simpl.
  - split; [intros _ x [] | reflexivity].
  - destruct (p a) eqn:Ea.
    + split; [discriminate|].
      intros H. rewrite (H a (or_introl eq_refl)) in Ea. discriminate.
    + destruct (JsArray.findIndex p l) as [i|]; simpl.
      * split; [discriminate|].
        intros H. exfalso.
        assert (Some i = None) by (apply IH; intros x Hx; apply H; now right).
        discriminate.
      * split; [|reflexivity].
        intros _ x [<-|Hx]; [assumption|]. now apply IH.
Qed.

(** [findIndex] returns the position of the first element that satisfies
    the test. *)
Lemma findIndex_Some {A} (p : A -> bool) (l : list A) (i : nat) (d : A) :
  JsArray.findIndex p l = Some i ->
  (i < List.length l)%nat /\ p (nth i l d) = true
  /\ forall j, (j < i)%nat -> p (nth j l d) = false.
Proof.
  revert i. induction l as [|a l IH]; simpl; intros i H; [discriminate|].
  destruct (p a) eqn:Ea.
  - injection H as <-. repeat split; [lia|assumption|]. intros j Hj; lia.
  - destruct (JsArray.findIndex p l) as [k|] eqn:Ek; simpl in H;
      [|discriminate].
    injection H as <-. destruct (IH k eq_refl) as (Hlt & Hp & Hmin).
    repeat split; [lia|assumption|].
    intros [|j] Hj; [assumption|]. apply Hmin. lia.
Qed.

Lemma present_findIndex (id0 : string) (l : list Todo) :
  present id0 l <-> JsArray.findIndex (fun todo => String.eqb (id todo) id0) l <> None.
Proof.
  split.
  - intros (t & Hin & Hid) Hnone.
    rewrite findIndex_None in Hnone. specialize (Hnone t Hin).
    simpl in Hnone. rewrite Hid, String.eqb_refl in Hnone. discriminate.
  - intros H. destruct (JsArray.findIndex _ l) as [i|] eqn:E; [|congruence].
    destruct (findIndex_Some _ l i (mkTodo "" "" None false 0 0) E)
      as (Hlt & Hp & _).
    exists (nth i l (mkTodo "" "" None false 0 0)). split.
    + now apply nth_In.
    + now apply String.eqb_eq.
Qed.

(* ------------------------------------------------------------------ *)
(** ** The backend, request by request *)

Lemma getAllTodos_eq (w : World) :
  TodoApi.getAllTodos w =
  if fires w then
    (Rejected (ApiError "Failed to fetch todos. Please check your connection."
                        FETCH_ERROR), drawn ReqGetAll w)
  else
    (Resolved (mkResponse (JsArray.sort TodoApi.byCreatedAtDesc (mockTodos w))
                          "Todos fetched successfully" true),
     drawn ReqGetAll w).
Proof.
  unfold TodoApi.getAllTodos, TodoApi.bind, fires; simpl.
  destruct (TodoApi.Qltb _ _); reflexivity.
Qed.

Lemma createTodo_eq (input : CreateTodoInput.t) (w : World) :
  TodoApi.createTodo input w =
  if fires w then
    (Rejected (ApiError "Failed to create todo. Please try again."
                        CREATE_ERROR), drawn (ReqCreate input) w)
  else
    (Resolved (mkResponse (newTodoIn w input) "Todo created successfully" true),
     mkWorld (mockTodos w ++ [newTodoIn w input]) (randoms w)
             (S (randomsRead w)) (clock w) (S (S (S (clockRead w))))
             (requests w ++ [ReqCreate input])).
Proof.
  unfold TodoApi.createTodo, TodoApi.bind, fires; simpl.
  destruct (TodoApi.Qltb _ _); reflexivity.
Qed.

Lemma updateTodo_eq (id0 : string) (input : UpdateTodoInput.t) (w : World) :
  TodoApi.updateTodo id0 input w =
  if fires w then
    (Rejected (ApiError "Failed to update todo. Please try again."
                        UPDATE_ERROR), drawn (ReqUpdate id0 input) w)
  else
    match JsArray.findIndex (fun todo => String.eqb (id todo) id0)
                            (mockTodos w) with
    | None => (Rejected (ApiError "Todo not found" NOT_FOUND),
               drawn (ReqUpdate id0 input) w)
    | Some i =>
        let updatedTodo :=
          TodoApi.spread (nth i (mockTodos w) (mkTodo "" "" None false 0 0))
                         input (clock w (clockRead w)) in
        (Resolved (mkResponse updatedTodo "Todo updated successfully" true),
         mkWorld (JsArray.assign i updatedTodo (mockTodos w)) (randoms w)
                 (S (randomsRead w)) (clock w) (S (clockRead w))
                 (requests w ++ [ReqUpdate id0 input]))
    end.
Proof.
  unfold TodoApi.updateTodo, TodoApi.bind, fires; simpl.
  destruct (TodoApi.Qltb _ _); [reflexivity|].
  destruct (JsArray.findIndex _ _); reflexivity.
Qed.

Lemma deleteTodo_eq (id0 : string) (w : World) :
  TodoApi.deleteTodo id0 w =
  if fires w then
    (Rejected (ApiError "Failed to delete todo. Please try again."
                        DELETE_ERROR), drawn (ReqDelete id0) w)
  else
    match JsArray.findIndex (fun todo => String.eqb (id todo) id0)
                            (mockTodos w) with
    | None => (Rejected (ApiError "Todo not found" NOT_FOUND),
               drawn (ReqDelete id0) w)
    | Some i =>
        (Resolved (mkResponse tt "Todo deleted successfully" true),
         mkWorld (JsArray.splice1 i (mockTodos w)) (randoms w)
                 (S (randomsRead w)) (clock w) (clockRead w)
                 (requests w ++ [ReqDelete id0]))
    end.
Proof.
  unfold TodoApi.deleteTodo, TodoApi.bind, fires; simpl.
  destruct (TodoApi.Qltb _ _); [reflexivity|].
  destruct (JsArray.findIndex _ _); reflexivity.
Qed.

(* ------------------------------------------------------------------ *)
(** ** Backend: order of the checks, normalisation of the description *)

(** C2.  In [updateTodo] and [deleteTodo] the simulated failure is decided
    before the target is looked up.  For every identifier, present or not:
    when failure injection fires the request is rejected with [UPDATE_ERROR]
    (resp. [DELETE_ERROR]); a [NOT_FOUND] rejection is produced only when
    injection does not fire and the identifier is absent, and it is produced
    then; and the answer to a request on which injection fires is the same in
    every state of the store, so it tells nothing about the target. *)
Theorem failure_checked_before_existence
  (w : World) (id0 : string) (input : UpdateTodoInput.t) :
  (fires w = true ->
     fst (TodoApi.updateTodo id0 input w)
       = Rejected (ApiError "Failed to update todo. Please try again."
                            UPDATE_ERROR)
     /\ fst (TodoApi.deleteTodo id0 w)
       = Rejected (ApiError "Failed to delete todo. Please try again."
                            DELETE_ERROR))
  /\ (forall msg,
        fst (TodoApi.updateTodo id0 input w) = Rejected (ApiError msg NOT_FOUND)
        \/ fst (TodoApi.deleteTodo id0 w) = Rejected (ApiError msg NOT_FOUND) ->
        fires w = false /\ ~ present id0 (mockTodos w))
  /\ (fires w = false -> ~ present id0 (mockTodos w) ->
        fst (TodoApi.updateTodo id0 input w)
          = Rejected (ApiError "Todo not found" NOT_FOUND)
        /\ fst (TodoApi.deleteTodo id0 w)
          = Rejected (ApiError "Todo not found" NOT_FOUND))
  /\ (forall w', fires w = true -> fires w' = true ->
        fst (TodoApi.updateTodo id0 input w')
          = fst (TodoApi.updateTodo id0 input w)
        /\ fst (TodoApi.deleteTodo id0 w') = fst (TodoApi.deleteTodo id0 w)).
Proof.
  rewrite updateTodo_eq, deleteTodo_eq.
  repeat split.
  - now rewrite H.
  - now rewrite H.
  - destruct (fires w); [|reflexivity].
    destruct H as [H|H]; simpl in H; discriminate.
  - intros Hp. apply present_findIndex in Hp.
    destruct (fires w); [destruct H as [H|H]; simpl in H; discriminate|].
    destruct (JsArray.findIndex _ _); [|congruence].
    destruct H as [H|H]; simpl in H; discriminate.
  - rewrite H.
    destruct (JsArray.findIndex _ _) eqn:E; [|reflexivity].
    exfalso. apply H0. apply present_findIndex. congruence.
  - rewrite H.
    destruct (JsArray.findIndex _ _) eqn:E; [|reflexivity].
    exfalso. apply H0. apply present_findIndex. congruence.
  - rewrite updateTodo_eq, H, H0. reflexivity.
  - rewrite deleteTodo_eq, H, H0. reflexivity.
Qed.

(** A store with the three initial tasks on which injection fires
    ([Math.random()] gives 0.05): the absent identifier ["42"] and the present
    identifier ["1"] are answered alike. *)
Lemma failure_checked_before_existence_witness :
  let w := mkWorld TodoApi.initialTodos (fun _ => 1 # 20) 0 (fun _ => 0) 0 [] in
  let input := UpdateTodoInput.mk None None (Some true) in
  fires w = true
  /\ ~ present "42" (mockTodos w)
  /\ present "1" (mockTodos w)
  /\ fst (TodoApi.updateTodo "42" input w)
     = Rejected (ApiError "Failed to update todo. Please try again."
                          UPDATE_ERROR)
  /\ fst (TodoApi.updateTodo "1" input w) = fst (TodoApi.updateTodo "42" input w)
  /\ fst (TodoApi.deleteTodo "1" w)
     = Rejected (ApiError "Failed to delete todo. Please try again."
                          DELETE_ERROR).
Proof.
  intros w input.
  assert (Hf : fires w = true) by reflexivity.
  split; [exact Hf|].
  split; [intros Hp; apply present_findIndex in Hp; apply Hp; reflexivity|].
  split; [exists (mkTodo "1" "Complete project documentation"
      (Some "Write comprehensive README and code comments for the portfolio project")
      false 1705312800000 1705312800000); split; [left|]; reflexivity|].
  split; [exact (proj1 (proj1 (failure_checked_before_existence w "42" input) Hf))|].
  split; [exact (proj1 (proj2 (proj2 (proj2
      (failure_checked_before_existence w "42" input))) w Hf Hf))|].
  exact (proj2 (proj1 (failure_checked_before_existence w "1" input) Hf)).
Defined.

(** C10.  A task returned by a successful [createTodo] is the one appended to
    the store, and its description is always a string: [""] when the input
    has no description or one that trims to the empty string, the trimmed
    description otherwise. *)
Theorem created_description_defined
  (input : CreateTodoInput.t) (w : World) (response : ApiResponse Todo) :
  fst (TodoApi.createTodo input w) = Resolved response ->
  mockTodos (snd (TodoApi.createTodo input w))
    = (mockTodos w ++ [data response])%list
  /\ description (data response) <> None
  /\ (CreateTodoInput.description input = None ->
        description (data response) = Some "")
  /\ (forall d, CreateTodoInput.description input = Some d ->
        JsString.trim d = "" -> description (data response) = Some "")
  /\ (forall d, CreateTodoInput.description input = Some d ->
        JsString.trim d <> "" ->
        description (data response) = Some (JsString.trim d)).
Proof.
  rewrite createTodo_eq. destruct (fires w); simpl; [discriminate|].
  intros [= <-]; simpl.
  split; [reflexivity|]. split; [discriminate|].
  split; [intros ->; reflexivity|].
  split; intros d -> Hd; simpl; rewrite or_else_empty; congruence.
Qed.

(** A description made of blanks only, no failure injected. *)
Lemma created_description_defined_witness :
  let w := mkWorld TodoApi.initialTodos (fun _ => 1 # 2) 0
                   (fun n => 1700000000000 + Z.of_nat n) 0 [] in
  let input := CreateTodoInput.mk " buy milk " (Some "   ") in
  exists response,
    fst (TodoApi.createTodo input w) = Resolved response
    /\ title (data response) = "buy milk"
    /\ description (data response) = Some "".
Proof.
  intros w input.
  exists (mkResponse (newTodoIn w input) "Todo created successfully" true).
  assert (H : fst (TodoApi.createTodo input w)
              = Resolved (mkResponse (newTodoIn w input)
                                     "Todo created successfully" true))
    by reflexivity.
  split; [exact H|]. split; [reflexivity|].
  exact (proj1 (proj2 (proj2 (proj2
           (created_description_defined input w _ H)))) "   " eq_refl eq_refl).
Defined.

(* ------------------------------------------------------------------ *)
(** ** The handlers, outcome by outcome *)

Lemma fetchTodos_eq (s : Index.System) :
  Index.fetchTodos s =
  let p := Index.page s in
  match TodoApi.getAllTodos (Index.backend s) with
  | (Resolved response, w') =>
      (Resolved tt,
       Index.mkSystem
         (Index.mkState (data response) (Index.filter p) (Index.loadingState p)
                        false (Index.toasts p)) w')
  | (Rejected e, w') =>
      (Resolved tt,
       Index.mkSystem
         (Index.mkState (Index.todos p) (Index.filter p) (Index.loadingState p)
            false
            (Index.toasts p ++
             [Toast.mk "Error"
                (Index.errorMessage e
                   "Failed to load tasks. Please refresh the page.")
                Toast.destructive])) w')
  end.
Proof.
  unfold Index.fetchTodos, Index.tryCatchFinally, Index.bind, Index.await; simpl.
  destruct (TodoApi.getAllTodos (Index.backend s)) as [[r|e] w']; reflexivity.
Qed.

Lemma handleCreateTodo_eq (input : CreateTodoInput.t) (s : Index.System) :
  Index.handleCreateTodo input s =
  let p := Index.page s in
  match TodoApi.createTodo input (Index.backend s) with
  | (Resolved response, w') =>
      (Resolved tt,
       Index.mkSystem
         (Index.mkState (data response :: Index.todos p) (Index.filter p)
            Index.notLoading (Index.isInitialLoading p)
            (Index.toasts p ++
             [Toast.mk "Success" "Task created successfully!" Toast.default]))
         w')
  | (Rejected e, w') =>
      (Rejected e,
       Index.mkSystem
         (Index.mkState (Index.todos p) (Index.filter p)
            Index.notLoading (Index.isInitialLoading p)
            (Index.toasts p ++
             [Toast.mk "Error"
                (Index.errorMessage e
                   "Failed to create task. Please try again.")
                Toast.destructive])) w')
  end.
Proof.
  unfold Index.handleCreateTodo, Index.tryCatchFinally, Index.bind, Index.await;
    simpl.
  destruct (TodoApi.createTodo input (Index.backend s)) as [[r|e] w'];
    reflexivity.
Qed.

Lemma handleUpdateTodo_eq (id0 : string) (input : UpdateTodoInput.t)
  (s : Index.System) :
  Index.handleUpdateTodo id0 input s =
  let p := Index.page s in
  match TodoApi.updateTodo id0 input (Index.backend s) with
  | (Resolved response, w') =>
      (Resolved tt,
       Index.mkSystem
         (Index.mkState
            (map (fun todo => if String.eqb (id todo) id0
                              then data response else todo) (Index.todos p))
            (Index.filter p) Index.notLoading (Index.isInitialLoading p)
            (if JsString.truthy_opt (UpdateTodoInput.title input)
                || match UpdateTodoInput.description input with
                   | Some d => JsString.truthy_opt d
                   | None => false
                   end
             then Index.toasts p ++
                  [Toast.mk "Success" "Task updated successfully!"
                            Toast.default]
             else Index.toasts p)) w')
  | (Rejected e, w') =>
      (Rejected e,
       Index.mkSystem
         (Index.mkState (Index.todos p) (Index.filter p)
            Index.notLoading (Index.isInitialLoading p)
            (Index.toasts p ++
             [Toast.mk "Error"
                (Index.errorMessage e
                   "Failed to update task. Please try again.")
                Toast.destructive])) w')
  end.
Proof.
  unfold Index.handleUpdateTodo, Index.tryCatchFinally, Index.bind, Index.await;
    simpl.
  destruct (TodoApi.updateTodo id0 input (Index.backend s)) as [[r|e] w'];
    [|reflexivity].
  simpl. destruct (_ || _); reflexivity.
Qed.

Lemma handleDeleteTodo_eq (id0 : string) (s : Index.System) :
  Index.handleDeleteTodo id0 s =
  let p := Index.page s in
  match TodoApi.deleteTodo id0 (Index.backend s) with
  | (Resolved _, w') =>
      (Resolved tt,
       Index.mkSystem
         (Index.mkState
            (List.filter (fun todo => negb (String.eqb (id todo) id0))
                         (Index.todos p))
            (Index.filter p) Index.notLoading (Index.isInitialLoading p)
            (Index.toasts p ++
             [Toast.mk "Success" "Task deleted successfully!" Toast.default]))
         w')
  | (Rejected e, w') =>
      (Resolved tt,
       Index.mkSystem
         (Index.mkState (Index.todos p) (Index.filter p)
            Index.notLoading (Index.isInitialLoading p)
            (Index.toasts p ++
             [Toast.mk "Error"
                (Index.errorMessage e
                   "Failed to delete task. Please try again.")
                Toast.destructive])) w')
  end.
Proof.
  unfold Index.handleDeleteTodo, Index.tryCatchFinally, Index.bind, Index.await;
    simpl.
  destruct (TodoApi.deleteTodo id0 (Index.backend s)) as [[r|e] w'];
    reflexivity.
Qed.

Lemma await_eq {A} (m : Api A) (s : Index.System) :
  Index.await m s
  = (fst (m (Index.backend s)),
     Index.mkSystem (Index.page s) (snd (m (Index.backend s)))).
Proof. unfold Index.await. destruct (m (Index.backend s)); reflexivity. Qed.

Lemma deleteTodo_requests (id0 : string) (w : World) :
  requests (snd (TodoApi.deleteTodo id0 w)) = (requests w ++ [ReqDelete id0])%list.
Proof.
  rewrite deleteTodo_eq. destruct (fires w); [reflexivity|].
  destruct (JsArray.findIndex _ _); reflexivity.
Qed.

(** The deletions of a bulk delete touch the backend only: each one is
    received by the backend whatever the outcome of the others, and the page
    they run in does not matter. *)
Lemma promiseAll_deletions (l : list Todo) (s : Index.System) :
  Index.page (snd (Index.promiseAll (deletions l) s)) = Index.page s
  /\ requests (Index.backend (snd (Index.promiseAll (deletions l) s)))
     = (requests (Index.backend s) ++ map (fun todo => ReqDelete (id todo)) l)%list.
Proof.
  revert s. induction l as [|a l IH]; intros s; simpl.
  - split; [reflexivity|]. now rewrite app_nil_r.
  - rewrite await_eq. fold (deletions l).
    specialize (IH (Index.mkSystem (Index.page s)
                      (snd (TodoApi.deleteTodo (id a) (Index.backend s))))).
    destruct (Index.promiseAll (deletions l) _) as [os s2]; simpl in *.
    destruct IH as [IH1 IH2]. split; [assumption|].
    rewrite IH2, deleteTodo_requests, <- app_assoc. reflexivity.
Qed.

Lemma promiseAll_deletions_page (l : list Todo) (s : Index.System)
  (p : Index.State) :
  Index.promiseAll (deletions l) (Index.mkSystem p (Index.backend s))
  = (fst (Index.promiseAll (deletions l) s),
     Index.mkSystem p (Index.backend (snd (Index.promiseAll (deletions l) s)))).
Proof.
  revert s. induction l as [|a l IH]; intros s; simpl; [reflexivity|].
  rewrite !await_eq; simpl. fold (deletions l).
  pose proof (IH (Index.mkSystem (Index.page s)
                    (snd (TodoApi.deleteTodo (id a) (Index.backend s)))))
    as H.
  simpl in H. rewrite H. clear H IH.
  destruct (Index.promiseAll (deletions l)
              (Index.mkSystem (Index.page s) _)) as [os s2]; reflexivity.
Qed.

(** [handleBulkDelete]; by the lemma above the outcome of the deletions can
    be read off the state in which the handler is called. *)
Lemma handleBulkDelete_eq (s : Index.System) :
  Index.handleBulkDelete s =
  let p := Index.page s in
  let completedTodos := List.filter (fun todo => completed todo) (Index.todos p) in
  match Index.promiseAll (deletions completedTodos) s with
  | (Resolved _, s') =>
      (Resolved tt,
       Index.mkSystem
         (Index.mkState
            (List.filter (fun todo => negb (completed todo)) (Index.todos p))
            (Index.filter p) Index.notLoading (Index.isInitialLoading p)
            (Index.toasts p ++
             [Toast.mk "Success"
                (JsString.ofInt (Z.of_nat (List.length completedTodos))
                 ++ " completed task(s) deleted!")
                Toast.default])) (Index.backend s'))
  | (Rejected _, s') =>
      (Resolved tt,
       Index.mkSystem
         (Index.mkState (Index.todos p) (Index.filter p)
            Index.notLoading (Index.isInitialLoading p)
            (Index.toasts p ++
             [Toast.mk "Error"
                "Failed to delete completed tasks. Please try again."
                Toast.destructive])) (Index.backend s'))
  end.
Proof.
  unfold Index.handleBulkDelete, Index.tryCatchFinally, Index.bind; simpl.
  fold (deletions (List.filter (fun todo => completed todo)
                               (Index.todos (Index.page s)))).
  rewrite (promiseAll_deletions_page _ s).
  destruct (Index.promiseAll _ s) as [[r|e] s']; reflexivity.
Qed.

(* ------------------------------------------------------------------ *)
(** ** Where a blank title is turned down *)

(** C1, as stated, does not hold of [handleCreateTodo]: called with the title
    ["  "] on an empty page, with no failure injected, it sends the request
    to the backend and puts a task with the empty title into the
    collection. *)
Lemma create_handler_dispatches_blank_title :
  let w := mkWorld TodoApi.initialTodos (fun _ => 1 # 2) 0
                   (fun n => 1700000000000 + Z.of_nat n) 0 [] in
  let s := Index.mkSystem (Index.mkState [] ALL Index.notLoading false []) w in
  let input := CreateTodoInput.mk "  " None in
  JsString.trim (CreateTodoInput.title input) = ""
  /\ requests (Index.backend s) = []
  /\ requests (Index.backend (snd (Index.handleCreateTodo input s)))
     = [ReqCreate input]
  /\ Index.todos (Index.page s) = []
  /\ Index.todos (Index.page (snd (Index.handleCreateTodo input s)))
     = [mkTodo "1700000000000" "" (Some "") false
               1700000000001 1700000000002].
Proof. vm_compute. repeat split. Qed.

(** C1, amended.  The check is made by the form: when the title is empty
    after trimming, [AddToDoForm.handleSubmit] returns without calling
    [onSubmit], so no request reaches the backend and neither the page nor
    the form changes.  [handleCreateTodo] itself sends every input it is
    given to the backend. *)
Theorem blank_title_rejected_by_form (f : AddToDoForm.Form) (s : Index.System) :
  (JsString.trim (AddToDoForm.title f) = "" ->
     forall onSubmit,
       AddToDoForm.handleSubmit onSubmit f s = (f, s)
       /\ requests (Index.backend (snd (AddToDoForm.handleSubmit onSubmit f s)))
          = requests (Index.backend s)
       /\ Index.todos (Index.page (snd (AddToDoForm.handleSubmit onSubmit f s)))
          = Index.todos (Index.page s))
  /\ (forall input,
        requests (Index.backend (snd (Index.handleCreateTodo input s)))
        = (requests (Index.backend s) ++ [ReqCreate input])%list).
Proof.
  split.
  - intros H onSubmit. unfold AddToDoForm.handleSubmit.
    apply trim_blank_falsy in H. rewrite H. simpl. repeat split.
  - intros input. rewrite handleCreateTodo_eq, createTodo_eq.
    destruct (fires _); reflexivity.
Qed.

Lemma blank_title_rejected_by_form_witness :
  let w := mkWorld TodoApi.initialTodos (fun _ => 1 # 2) 0
                   (fun n => 1700000000000 + Z.of_nat n) 0 [] in
  let s := Index.mkSystem (Index.mkState [] ALL Index.notLoading false []) w in
  let f := AddToDoForm.mkForm "  " "" false in
  JsString.trim (AddToDoForm.title f) = ""
  /\ AddToDoForm.handleSubmit Index.handleCreateTodo f s = (f, s).
Proof.
  intros w s f.
  split; [reflexivity|].
  exact (proj1 (proj1 (blank_title_rejected_by_form f s) eq_refl
                  Index.handleCreateTodo)).
Defined.

(* ------------------------------------------------------------------ *)
(** ** Failures and the loading state *)

(** C4.  When the backend rejects a create, an update or a delete, the
    handler leaves the collection of the page as it was. *)
Theorem failed_mutation_keeps_collection (s : Index.System) (e : Exn) :
  (forall input,
     fst (TodoApi.createTodo input (Index.backend s)) = Rejected e ->
     Index.todos (Index.page (snd (Index.handleCreateTodo input s)))
     = Index.todos (Index.page s))
  /\ (forall id0 input,
        fst (TodoApi.updateTodo id0 input (Index.backend s)) = Rejected e ->
        Index.todos (Index.page (snd (Index.handleUpdateTodo id0 input s)))
        = Index.todos (Index.page s))
  /\ (forall id0,
        fst (TodoApi.deleteTodo id0 (Index.backend s)) = Rejected e ->
        Index.todos (Index.page (snd (Index.handleDeleteTodo id0 s)))
        = Index.todos (Index.page s)).
Proof.
  repeat split.
  - intros input H. rewrite handleCreateTodo_eq.
    destruct (TodoApi.createTodo _ _) as [[r|e'] w']; simpl in *;
      [discriminate|reflexivity].
  - intros id0 input H. rewrite handleUpdateTodo_eq.
    destruct (TodoApi.updateTodo _ _ _) as [[r|e'] w']; simpl in *;
      [discriminate|reflexivity].
  - intros id0 H. rewrite handleDeleteTodo_eq.
    destruct (TodoApi.deleteTodo _ _) as [[r|e'] w']; simpl in *;
      [discriminate|reflexivity].
Qed.

(** The page after a successful fetch of the initial store; the deletion of
    an identifier that the backend does not know is rejected with
    [NOT_FOUND] and the three tasks stay. *)
Lemma failed_mutation_keeps_collection_witness :
  let w := mkWorld TodoApi.initialTodos (fun _ => 1 # 2) 0
                   (fun n => 1700000000000 + Z.of_nat n) 0 [] in
  let s := snd (Index.fetchTodos (Index.mkSystem Index.initialState w)) in
  fst (TodoApi.deleteTodo "nonexistent-id" (Index.backend s))
    = Rejected (ApiError "Todo not found" NOT_FOUND)
  /\ Index.todos (Index.page (snd (Index.handleDeleteTodo "nonexistent-id" s)))
     = Index.todos (Index.page s).
Proof.
  intros w s.
  assert (H : fst (TodoApi.deleteTodo "nonexistent-id" (Index.backend s))
              = Rejected (ApiError "Todo not found" NOT_FOUND))
    by reflexivity.
  split; [exact H|].
  exact (proj2 (proj2 (failed_mutation_keeps_collection s _)) _ H).
Defined.

(** C5.  Whatever the outcome, an intent that has settled leaves
    [loadingState] at [{ isLoading: false }]: the four handlers assign it in
    their [finally] block, whatever it was before; the fetch on mount and a
    submission turned down by the form never assign it, so it is idle
    afterwards as it was before.  The fetch clears its own flag,
    [isInitialLoading]. *)
Theorem descriptor_reset (i : Intent) (s : Index.System) :
  (Index.loadingState (Index.page s) = Index.notLoading ->
     Index.loadingState (Index.page (settle i s)) = Index.notLoading)
  /\ (setsLoadingState i = true ->
        Index.loadingState (Index.page (settle i s)) = Index.notLoading)
  /\ (i = FetchAll ->
        Index.isInitialLoading (Index.page (settle i s)) = false).
Proof.
  assert (Hcreate : forall input,
            Index.loadingState
              (Index.page (snd (Index.handleCreateTodo input s)))
            = Index.notLoading).
  { intros input. rewrite handleCreateTodo_eq.
    destruct (TodoApi.createTodo _ _) as [[r|e] w']; reflexivity. }
  destruct i as [|input|id0 input|id0| |f]; simpl.
  - rewrite fetchTodos_eq.
    destruct (TodoApi.getAllTodos _) as [[r|e] w']; simpl; by_cases.
  - rewrite Hcreate. by_cases.
  - rewrite handleUpdateTodo_eq.
    destruct (TodoApi.updateTodo _ _ _) as [[r|e] w']; simpl; by_cases.
  - rewrite handleDeleteTodo_eq.
    destruct (TodoApi.deleteTodo _ _) as [[r|e] w']; simpl; by_cases.
  - rewrite handleBulkDelete_eq; simpl.
    destruct (Index.promiseAll _ _) as [[r|e] s']; simpl; by_cases.
  - unfold AddToDoForm.handleSubmit.
    destruct (JsString.truthy (JsString.trim (AddToDoForm.title f))); simpl.
    + specialize (Hcreate
        (CreateTodoInput.mk (JsString.trim (AddToDoForm.title f))
           (JsString.or_undefined (JsString.trim (AddToDoForm.description f))))).
      destruct (Index.handleCreateTodo _ s) as [[u|e] s']; simpl in *; by_cases.
    + by_cases.
Qed.

(** The fetch on mount with a simulated failure, then a bulk delete on the
    page that it leaves. *)
Lemma descriptor_reset_witness :
  let w := mkWorld TodoApi.initialTodos (fun _ => 1 # 20) 0
                   (fun n => 1700000000000 + Z.of_nat n) 0 [] in
  let s := Index.mkSystem Index.initialState w in
  Index.loadingState (Index.page s) = Index.notLoading
  /\ Index.loadingState (Index.page (settle FetchAll s)) = Index.notLoading
  /\ Index.isInitialLoading (Index.page (settle FetchAll s)) = false
  /\ Index.loadingState
       (Index.page (settle BulkDeleteCompleted (settle FetchAll s)))
     = Index.notLoading.
Proof.
  intros w s.
  split; [reflexivity|].
  split; [exact (proj1 (descriptor_reset FetchAll s) eq_refl)|].
  split; [exact (proj2 (proj2 (descriptor_reset FetchAll s)) eq_refl)|].
  exact (proj1 (proj2 (descriptor_reset BulkDeleteCompleted
                         (settle FetchAll s))) eq_refl).
Defined.

(* ------------------------------------------------------------------ *)
(** ** Display order *)

Lemma insert_perm (x : Todo) (l : list Todo) :
  Permutation (x :: l) (JsArray.insert TodoApi.byCreatedAtDesc x l).
Proof.
  induction l as [|y l IH]; simpl; [reflexivity|].
  destruct (TodoApi.byCreatedAtDesc x y <=? 0); [reflexivity|].
  rewrite perm_swap. now apply perm_skip.
Qed.

Lemma insert_HdRel (a x : Todo) (l : list Todo) :
  newerFirst a x -> HdRel newerFirst a l ->
  HdRel newerFirst a (JsArray.insert TodoApi.byCreatedAtDesc x l).
Proof.
  intros Hax Hal. destruct l as [|y l]; simpl; [now constructor|].
  destruct (TodoApi.byCreatedAtDesc x y <=? 0); constructor;
    [assumption | now inversion Hal].
Qed.

Lemma insert_sorted (x : Todo) (l : list Todo) :
  sortedDesc l -> sortedDesc (JsArray.insert TodoApi.byCreatedAtDesc x l).
Proof.
  unfold sortedDesc. induction l as [|y l IH]; simpl; intros Hs.
  - repeat constructor.
  - inversion Hs as [|? ? Hl Hy]; subst.
    destruct (Z.leb_spec (TodoApi.byCreatedAtDesc x y) 0) as [Hle|Hgt];
      unfold TodoApi.byCreatedAtDesc in *.
    + constructor; [assumption|]. constructor. unfold newerFirst. lia.
    + constructor; [now apply IH|].
      apply insert_HdRel; [unfold newerFirst; lia | assumption].
Qed.

Lemma sort_sorted (l : list Todo) :
  sortedDesc (JsArray.sort TodoApi.byCreatedAtDesc l).
Proof.
  induction l as [|x l IH]; simpl; [constructor|].
  now apply insert_sorted.
Qed.

Lemma sort_perm (l : list Todo) :
  Permutation l (JsArray.sort TodoApi.byCreatedAtDesc l).
Proof.
  induction l as [|x l IH]; simpl; [constructor|].
  rewrite <- insert_perm. now apply perm_skip.
Qed.

(** C6.  After a successful fetch the collection of the page is the store of
    the backend arranged by [createdAt], newest first.  A successful create
    puts the returned task, whose [createdAt] is the reading of the clock
    taken by the backend, at the head of the collection; when the collection
    was in display order and none of its tasks was created later than that
    reading, it is in display order afterwards. *)
Theorem display_order_after_fetch_and_create (s : Index.System) :
  (forall response,
     fst (TodoApi.getAllTodos (Index.backend s)) = Resolved response ->
     Index.todos (Index.page (snd (Index.fetchTodos s))) = data response
     /\ sortedDesc (Index.todos (Index.page (snd (Index.fetchTodos s))))
     /\ Permutation (mockTodos (Index.backend s))
                    (Index.todos (Index.page (snd (Index.fetchTodos s)))))
  /\ (forall input response,
        fst (TodoApi.createTodo input (Index.backend s)) = Resolved response ->
        Index.todos (Index.page (snd (Index.handleCreateTodo input s)))
        = data response :: Index.todos (Index.page s)
        /\ createdAt (data response)
           = clock (Index.backend s) (S (clockRead (Index.backend s)))
        /\ (sortedDesc (Index.todos (Index.page s)) ->
            Forall (fun todo => createdAt todo <= createdAt (data response))
                   (Index.todos (Index.page s)) ->
            sortedDesc
              (Index.todos (Index.page (snd (Index.handleCreateTodo input s)))))).
Proof.
  split.
  - intros response H. rewrite fetchTodos_eq.
    rewrite getAllTodos_eq in *.
    destruct (fires _); simpl in *; [discriminate|].
    injection H as <-; simpl.
    split; [reflexivity|]. split; [apply sort_sorted | apply sort_perm].
  - intros input response H. rewrite handleCreateTodo_eq.
    rewrite createTodo_eq in *.
    destruct (fires _); simpl in *; [discriminate|].
    injection H as <-; simpl.
    split; [reflexivity|]. split; [reflexivity|].
    intros Hs Hall. constructor; [assumption|].
    destruct (Index.todos (Index.page s)) as [|y l]; constructor.
    now inversion Hall.
Qed.

(** The fetch of the initial store, then the creation of a task at a time
    later than the three initial ones. *)
Lemma display_order_after_fetch_and_create_witness :
  let w := mkWorld TodoApi.initialTodos (fun _ => 1 # 2) 0
                   (fun n => 1750000000000 + Z.of_nat n) 0 [] in
  let s0 := Index.mkSystem Index.initialState w in
  let s1 := snd (Index.fetchTodos s0) in
  let input := CreateTodoInput.mk "Water the plants" None in
  map id (Index.todos (Index.page s1)) = ["3"; "1"; "2"]
  /\ sortedDesc (Index.todos (Index.page s1))
  /\ map id (Index.todos (Index.page (snd (Index.handleCreateTodo input s1))))
     = ["1750000000000"; "3"; "1"; "2"]
  /\ sortedDesc (Index.todos (Index.page (snd (Index.handleCreateTodo input s1)))).
Proof.
  intros w s0 s1 input.
  assert (Hf : fst (TodoApi.getAllTodos (Index.backend s0))
               = Resolved (mkResponse
                             (JsArray.sort TodoApi.byCreatedAtDesc
                                           TodoApi.initialTodos)
                             "Todos fetched successfully" true))
    by reflexivity.
  assert (Hc : fst (TodoApi.createTodo input (Index.backend s1))
               = Resolved (mkResponse (newTodoIn (Index.backend s1) input)
                                      "Todo created successfully" true))
    by reflexivity.
  pose proof (proj1 (display_order_after_fetch_and_create s0) _ Hf)
    as (_ & Hsorted & _).
  split; [reflexivity|]. split; [exact Hsorted|]. split; [reflexivity|].
  apply (proj2 (proj2 (proj2 (display_order_after_fetch_and_create s1)
                         input _ Hc))).
  - exact Hsorted.
  - repeat constructor; apply Z.leb_le; reflexivity.
Defined.

(* ------------------------------------------------------------------ *)
(** ** Deleting and filtering *)

Lemma filter_filter {A} (p q : A -> bool) (l : list A) :
  List.filter p (List.filter q l) = List.filter (fun x => q x && p x) l.
Proof.
  induction l as [|a l IH]; simpl; [reflexivity|].
  destruct (q a); simpl; [destruct (p a)|]; now rewrite IH.
Qed.

Lemma filter_none {A} (p : A -> bool) (l : list A) :
  (forall x, In x l -> p x = false) -> List.filter p l = [].
Proof.
  induction l as [|a l IH]; simpl; intros H; [reflexivity|].
  rewrite (H a (or_introl eq_refl)). apply IH. intros x Hx. apply H. now right.
Qed.

(** C8.  After a successful [handleDeleteTodo] of a task of the collection,
    no task of the collection carries its identifier, and the other tasks
    are the same records, in the same order, as before. *)
Theorem delete_removes_only_target
  (s : Index.System) (T : Todo) (response : ApiResponse unit) :
  In T (Index.todos (Index.page s)) ->
  fst (TodoApi.deleteTodo (id T) (Index.backend s)) = Resolved response ->
  let after := Index.todos (Index.page (snd (Index.handleDeleteTodo (id T) s))) in
  (forall todo, In todo after -> id todo <> id T)
  /\ List.filter (fun todo => negb (hasId (id T) todo)) after
     = List.filter (fun todo => negb (hasId (id T) todo))
                   (Index.todos (Index.page s))
  /\ (forall todo, In todo after <->
                   In todo (Index.todos (Index.page s)) /\ id todo <> id T).
Proof.
  intros HT H after. subst after. rewrite handleDeleteTodo_eq.
  destruct (TodoApi.deleteTodo _ _) as [[r|e] w']; simpl in *; [|discriminate].
  assert (Hin : forall todo,
            In todo (List.filter (fun t => negb (String.eqb (id t) (id T)))
                                 (Index.todos (Index.page s)))
            <-> In todo (Index.todos (Index.page s)) /\ id todo <> id T).
  { intros todo. rewrite filter_In, negb_true_iff, String.eqb_neq. tauto. }
  split; [intros todo Hd; now apply Hin|].
  split; [|exact Hin].
  rewrite filter_filter. apply filter_ext. intros a. unfold hasId.
  now destruct (String.eqb (id a) (id T)).
Qed.

(** The page that shows the initial store; task ["2"] is deleted. *)
Lemma delete_removes_only_target_witness :
  let w := mkWorld TodoApi.initialTodos (fun _ => 1 # 2) 0
                   (fun n => 1750000000000 + Z.of_nat n) 0 [] in
  let s := snd (Index.fetchTodos (Index.mkSystem Index.initialState w)) in
  let T := mkTodo "2" "Review TypeScript best practices"
             (Some "Study advanced TypeScript patterns for better code organization")
             true 1705242600000 1705310100000 in
  In T (Index.todos (Index.page s))
  /\ map id (Index.todos (Index.page (snd (Index.handleDeleteTodo (id T) s))))
     = ["3"; "1"]
  /\ forall todo,
       In todo (Index.todos (Index.page (snd (Index.handleDeleteTodo (id T) s))))
       -> id todo <> id T.
Proof.
  intros w s T.
  assert (HT : In T (Index.todos (Index.page s)))
    by (right; right; left; reflexivity).
  split; [exact HT|]. split; [reflexivity|].
  exact (proj1 (delete_removes_only_target s T
                  (mkResponse tt "Todo deleted successfully" true)
                  HT eq_refl)).
Defined.

(** C9.  The list shown under [ALL] is the collection; under [ACTIVE] it
    holds exactly the tasks that are not completed and under [COMPLETED]
    exactly those that are; no task is in both, and the two together are a
    rearrangement of the collection. *)
Theorem filtered_views_partition (todos : list Todo) :
  ToDoList.filteredTodos todos ALL = todos
  /\ (forall todo, In todo (ToDoList.filteredTodos todos ACTIVE)
                   <-> In todo todos /\ completed todo = false)
  /\ (forall todo, In todo (ToDoList.filteredTodos todos COMPLETED)
                   <-> In todo todos /\ completed todo = true)
  /\ (forall todo, ~ (In todo (ToDoList.filteredTodos todos ACTIVE)
                      /\ In todo (ToDoList.filteredTodos todos COMPLETED)))
  /\ Permutation (ToDoList.filteredTodos todos ACTIVE
                  ++ ToDoList.filteredTodos todos COMPLETED) todos
  /\ (List.length (ToDoList.filteredTodos todos ACTIVE)
      + List.length (ToDoList.filteredTodos todos COMPLETED)
      = List.length todos)%nat.
Proof.
  unfold ToDoList.filteredTodos.
  assert (Hperm : Permutation
            (List.filter (fun todo => negb (completed todo)) todos
             ++ List.filter (fun todo => completed todo) todos) todos).
  { induction todos as [|a l IH]; simpl; [constructor|].
    destruct (completed a); simpl.
    - rewrite <- Permutation_middle. now apply perm_skip.
    - now apply perm_skip. }
  split.
  { clear Hperm. induction todos as [|a l IH]; simpl; congruence. }
  split; [intros todo; rewrite filter_In, negb_true_iff; tauto|].
  split; [intros todo; rewrite filter_In; tauto|].
  split.
  { intros todo [Ha Hc]. rewrite filter_In in Ha, Hc.
    destruct Ha as [_ Ha], Hc as [_ Hc]. rewrite Hc in Ha. discriminate. }
  split; [exact Hperm|].
  rewrite <- length_app. now apply Permutation_length.
Qed.

(* ------------------------------------------------------------------ *)
(** ** Bulk delete *)

(** C7.  [handleBulkDelete] takes the tasks of the collection that are
    completed when it is called and sends one delete request per such task,
    with its identifier, in order.  When all of them are resolved, the
    collection afterwards is the list of the tasks that were not completed:
    every such task remains, every removed task is one of the snapshot, and,
    identifiers being unique in the collection, no remaining task carries an
    identifier of the snapshot. *)
Theorem bulk_delete_removes_completed (s : Index.System) :
  let before := Index.todos (Index.page s) in
  let snapshot := List.filter (fun todo => completed todo) before in
  let after := Index.todos (Index.page (snd (Index.handleBulkDelete s))) in
  requests (Index.backend (snd (Index.handleBulkDelete s)))
  = (requests (Index.backend s)
     ++ map (fun todo => ReqDelete (id todo)) snapshot)%list
  /\ (forall responses,
        fst (Index.promiseAll (deletions snapshot) s) = Resolved responses ->
        List.length responses = List.length snapshot
        /\ (forall todo, In todo after <->
                         In todo before /\ completed todo = false)
        /\ List.filter (fun todo => negb (completed todo)) after
           = List.filter (fun todo => negb (completed todo)) before
        /\ (forall todo, In todo before -> ~ In todo after ->
                         In (id todo) (map id snapshot))
        /\ (NoDup (map id before) ->
            forall todo, In todo after -> ~ In (id todo) (map id snapshot))).
Proof.
  intros before snapshot after. subst after snapshot before.
  rewrite handleBulkDelete_eq. cbv zeta.
  set (before := Index.todos (Index.page s)) in *.
  set (snapshot := List.filter (fun todo => completed todo) before) in *.
  pose proof (promiseAll_deletions snapshot s) as [_ Hreq].
  assert (Hlen : forall l s0 rs,
            fst (Index.promiseAll (deletions l) s0) = Resolved rs ->
            List.length rs = List.length l).
  { induction l as [|a l IH]; simpl; intros s0 rs H.
    - injection H as <-. reflexivity.
    - rewrite await_eq in H. fold (deletions l) in H.
      specialize (IH (Index.mkSystem (Index.page s0)
                        (snd (TodoApi.deleteTodo (id a) (Index.backend s0))))).
      destruct (Index.promiseAll (deletions l) _) as [os s2]; simpl in *.
      destruct (fst (TodoApi.deleteTodo (id a) (Index.backend s0)));
        [|discriminate].
      destruct os as [l0|]; [|discriminate].
      injection H as <-. simpl. f_equal. now apply (IH l0). }
  split.
  - destruct (Index.promiseAll (deletions snapshot) s) as [[r|e] s'];
      simpl in *; exact Hreq.
  - intros responses H. specialize (Hlen snapshot s responses H).
    destruct (Index.promiseAll (deletions snapshot) s) as [[r|e] s'];
      simpl in *; [|discriminate].
    assert (Hin : forall todo,
              In todo (List.filter (fun t => negb (completed t)) before)
              <-> In todo before /\ completed todo = false).
    { intros todo. rewrite filter_In, negb_true_iff. tauto. }
    split; [exact Hlen|]. split; [exact Hin|].
    split.
    { rewrite filter_filter. apply filter_ext. intros a.
      now destruct (completed a). }
    split.
    + intros todo Hb Hna. apply in_map. unfold snapshot. apply filter_In.
      split; [assumption|].
      destruct (completed todo) eqn:E; [reflexivity|].
      exfalso. apply Hna. apply Hin. now split.
    + intros Hnd todo Ha Hs. apply Hin in Ha. destruct Ha as [Hb Hc].
      apply in_map_iff in Hs. destruct Hs as (c & Hid & Hcs).
      unfold snapshot in Hcs. apply filter_In in Hcs. destruct Hcs as [Hcb Hcc].
      assert (c = todo); [|subst c; congruence].
      clear - Hnd Hb Hcb Hid. induction before as [|a l IH]; [destruct Hb|].
      simpl in Hnd. inversion Hnd as [|? ? Hnotin Hnd']; subst.
      destruct Hb as [<-|Hb], Hcb as [<-|Hcb]; try reflexivity.
      * exfalso. apply Hnotin. rewrite <- Hid. now apply in_map.
      * exfalso. apply Hnotin. rewrite Hid. now apply in_map.
      * now apply IH.
Qed.

(** The scenario of the specification: the collection is [A; B] with [A]
    completed and [B] not, the backend holds both and no failure is
    injected; [B] alone is left. *)
Lemma bulk_delete_removes_completed_witness :
  let A := mkTodo "10" "A" (Some "") true 2000 2000 in
  let B := mkTodo "11" "B" (Some "") false 1000 1000 in
  let w := mkWorld [B; A] (fun _ => 1 # 2) 0 (fun n => 3000 + Z.of_nat n) 0 [] in
  let s := Index.mkSystem (Index.mkState [A; B] ALL Index.notLoading false []) w in
  fst (Index.promiseAll (deletions [A]) s)
    = Resolved [mkResponse tt "Todo deleted successfully" true]
  /\ NoDup (map id [A; B])
  /\ Index.todos (Index.page (snd (Index.handleBulkDelete s))) = [B]
  /\ mockTodos (Index.backend (snd (Index.handleBulkDelete s))) = [B]
  /\ requests (Index.backend (snd (Index.handleBulkDelete s))) = [ReqDelete "10"]
  /\ forall todo,
       In todo (Index.todos (Index.page (snd (Index.handleBulkDelete s)))) ->
       ~ In (id todo) (map id [A]).
Proof.
  intros A B w s.
  assert (Hok : fst (Index.promiseAll (deletions [A]) s)
                = Resolved [mkResponse tt "Todo deleted successfully" true])
    by reflexivity.
  assert (Hnd : NoDup (map id [A; B])).
  { repeat constructor; simpl; intuition discriminate. }
  split; [exact Hok|]. split; [exact Hnd|].
  split; [reflexivity|]. split; [reflexivity|].
  split; [exact (proj1 (bulk_delete_removes_completed s))|].
  exact (proj2 (proj2 (proj2 (proj2
           (proj2 (bulk_delete_removes_completed s) _ Hok)))) Hnd).
Defined.

(* ------------------------------------------------------------------ *)
(** ** Update *)

Lemma replace_others (id0 : string) (T' : Todo) (l : list Todo) :
  id T' = id0 ->
  List.filter (fun todo => negb (hasId id0 todo))
    (map (fun todo => if String.eqb (id todo) id0 then T' else todo) l)
  = List.filter (fun todo => negb (hasId id0 todo)) l.
Proof.
  intros HT'. unfold hasId. induction l as [|a l IH]; simpl; [reflexivity|].
  destruct (String.eqb (id a) id0) eqn:Ea; simpl.
  - rewrite HT', String.eqb_refl. simpl. exact IH.
  - rewrite Ea. simpl. now rewrite IH.
Qed.

Lemma replace_target (T T' : Todo) (l : list Todo) :
  In T l -> NoDup (map id l) -> id T' = id T ->
  List.filter (hasId (id T))
    (map (fun todo => if String.eqb (id todo) (id T) then T' else todo) l)
  = [T'].
Proof.
  intros Hin Hnd HT'. unfold hasId.
  induction l as [|a l IH]; [destruct Hin|].
  simpl in Hnd. inversion Hnd as [|? ? Hnotin Hnd']; subst. simpl.
  destruct (String.eqb (id a) (id T)) eqn:Ea.
  - rewrite HT', String.eqb_refl. f_equal.
    apply String.eqb_eq in Ea. apply filter_none.
    intros x Hx. apply in_map_iff in Hx. destruct Hx as (y & <- & Hy).
    assert (Hne : String.eqb (id y) (id T) = false).
    { apply String.eqb_neq. intros E. apply Hnotin. rewrite Ea, <- E.
      now apply in_map. }
    now rewrite Hne.
  - rewrite Ea. destruct Hin as [->|Hin].
    + now rewrite String.eqb_refl in Ea.
    + now apply IH.
Qed.

(** What [ToDoItem.handleSaveEdit] sends when the description field is left
    blank: the property [description] is there, with the value [undefined]. *)
Lemma save_edit_blank_description :
  ToDoItem.saveEditInput " Buy milk " "  "
  = UpdateTodoInput.mk (Some "Buy milk") (Some None) None.
Proof. reflexivity. Qed.

(** The scenario of the specification: the collection is [A], not completed
    and created at [t1]; its title is changed to ["B"] with success. *)
Lemma update_title_scenario :
  let A := mkTodo "7" "A" (Some "") false 1000 1000 in
  let w := mkWorld [A] (fun _ => 1 # 2) 0 (fun n => 2000 + Z.of_nat n) 0 [] in
  let s := Index.mkSystem (Index.mkState [A] ALL Index.notLoading false []) w in
  Index.todos
    (Index.page
       (snd (Index.handleUpdateTodo "7"
               (UpdateTodoInput.mk (Some "B") None None) s)))
  = [mkTodo "7" "B" (Some "") false 1000 2000].
Proof. reflexivity. Qed.

(** C3, as stated, does not hold: the time stamp of an update is the reading
    of the clock, whatever the previous stamp was.  On a machine whose clock
    reads September 2020, the page shows the initial store (last updated in
    January 2024); task ["1"] is completed with success and its [updatedAt]
    is then smaller than before. *)
Lemma update_stamp_may_precede_previous :
  let w := mkWorld TodoApi.initialTodos (fun _ => 1 # 2) 0
                   (fun n => 1600000000000 + Z.of_nat n) 0 [] in
  let s := snd (Index.fetchTodos (Index.mkSystem Index.initialState w)) in
  let T := mkTodo "1" "Complete project documentation"
             (Some "Write comprehensive README and code comments for the portfolio project")
             false 1705312800000 1705312800000 in
  let T' := mkTodo "1" "Complete project documentation"
              (Some "Write comprehensive README and code comments for the portfolio project")
              true 1705312800000 1600000000000 in
  let input := UpdateTodoInput.mk None None (Some true) in
  In T (Index.todos (Index.page s))
  /\ fst (Index.handleUpdateTodo (id T) input s) = Resolved tt
  /\ List.filter (hasId (id T))
       (Index.todos (Index.page (snd (Index.handleUpdateTodo (id T) input s))))
     = [T']
  /\ updatedAt T' < updatedAt T.
Proof.
  intros w s T T' input.
  split; [right; left; reflexivity|].
  split; [reflexivity|]. split; reflexivity.
Qed.

(** C3, amended.  Let [T] be a task of the collection and let the backend
    hold [T] under its identifier.  When [updateTodo] resolves,
    [handleUpdateTodo] resolves, and the collection afterwards is the one
    before with the returned task in the place of every task that carries the
    identifier of [T].  The returned task is [T] with the properties of the
    input written over it (a description given as [undefined] erases the
    description), the same [id] and [createdAt], and the reading of the
    clock as [updatedAt]; so [completed] is [true] after [{completed: true}],
    and [updatedAt] has not decreased when the clock is not behind the
    previous stamp.  The other tasks are the same records in the same order,
    and, identifiers being unique in the collection, the returned task is
    the only one with its identifier. *)
Theorem update_replaces_task
  (s : Index.System) (T : Todo) (input : UpdateTodoInput.t)
  (response : ApiResponse Todo) :
  In T (Index.todos (Index.page s)) ->
  (forall B, In B (mockTodos (Index.backend s)) -> id B = id T -> B = T) ->
  fst (TodoApi.updateTodo (id T) input (Index.backend s)) = Resolved response ->
  let T' := data response in
  let now := clock (Index.backend s) (clockRead (Index.backend s)) in
  let after :=
    Index.todos (Index.page (snd (Index.handleUpdateTodo (id T) input s))) in
  fst (Index.handleUpdateTodo (id T) input s) = Resolved tt
  /\ after = map (fun todo => if hasId (id T) todo then T' else todo)
                 (Index.todos (Index.page s))
  /\ id T' = id T
  /\ title T' = match UpdateTodoInput.title input with
                | Some x => x | None => title T end
  /\ description T' = match UpdateTodoInput.description input with
                      | Some x => x | None => description T end
  /\ completed T' = match UpdateTodoInput.completed input with
                    | Some x => x | None => completed T end
  /\ createdAt T' = createdAt T
  /\ updatedAt T' = now
  /\ (UpdateTodoInput.completed input = Some true -> completed T' = true)
  /\ (updatedAt T <= now -> updatedAt T <= updatedAt T')
  /\ List.filter (fun todo => negb (hasId (id T) todo)) after
     = List.filter (fun todo => negb (hasId (id T) todo))
                   (Index.todos (Index.page s))
  /\ (NoDup (map id (Index.todos (Index.page s))) ->
      List.filter (hasId (id T)) after = [T']).
Proof.
  intros HT Hsync H T' now after. subst T' now after.
  rewrite handleUpdateTodo_eq. rewrite updateTodo_eq in *.
  destruct (fires _); simpl in *; [discriminate|].
  destruct (JsArray.findIndex _ _) as [i|] eqn:Ei; simpl in *; [|discriminate].
  injection H as <-; simpl.
  destruct (findIndex_Some _ _ i (mkTodo "" "" None false 0 0) Ei)
    as (Hlt & Hp & _).
  assert (Hnth : nth i (mockTodos (Index.backend s))
                     (mkTodo "" "" None false 0 0) = T).
  { apply Hsync; [now apply nth_In | now apply String.eqb_eq]. }
  rewrite Hnth.
  repeat split; try reflexivity.
  - intros ->. reflexivity.
  - intros Hle. exact Hle.
  - now apply replace_others.
  - intros Hnd. now apply replace_target.
Qed.

(** Task ["1"] of the initial store is completed on a page that shows the
    store, the clock reading June 2025. *)
Lemma update_replaces_task_witness :
  let w := mkWorld TodoApi.initialTodos (fun _ => 1 # 2) 0
                   (fun n => 1750000000000 + Z.of_nat n) 0 [] in
  let s := snd (Index.fetchTodos (Index.mkSystem Index.initialState w)) in
  let T := mkTodo "1" "Complete project documentation"
             (Some "Write comprehensive README and code comments for the portfolio project")
             false 1705312800000 1705312800000 in
  let input := UpdateTodoInput.mk None None (Some true) in
  let after :=
    Index.todos (Index.page (snd (Index.handleUpdateTodo (id T) input s))) in
  In T (Index.todos (Index.page s))
  /\ NoDup (map id (Index.todos (Index.page s)))
  /\ List.filter (hasId (id T)) after
     = [mkTodo "1" "Complete project documentation"
          (Some "Write comprehensive README and code comments for the portfolio project")
          true 1705312800000 1750000000000]
  /\ map id after = ["3"; "1"; "2"].
Proof.
  intros w s T input after.
  assert (HT : In T (Index.todos (Index.page s))) by (right; left; reflexivity).
  assert (Hnd : NoDup (map id (Index.todos (Index.page s)))).
  { repeat constructor; simpl; intuition discriminate. }
  assert (Hsync : forall B, In B (mockTodos (Index.backend s)) ->
                            id B = id T -> B = T).
  { intros B [<-|[<-|[<-|[]]]] E; (reflexivity || discriminate E). }
  split; [exact HT|]. split; [exact Hnd|]. split; [|reflexivity].
  exact (proj2 (proj2 (proj2 (proj2 (proj2 (proj2 (proj2 (proj2 (proj2 (proj2
    (proj2 (update_replaces_task s T input
              (mkResponse (mkTodo "1" "Complete project documentation"
                 (Some "Write comprehensive README and code comments for the portfolio project")
                 true 1705312800000 1750000000000)
                 "Todo updated successfully" true)
              HT Hsync eq_refl))))))))))) Hnd).
Defined.

(* ------------------------------------------------------------------ *)
(** ** The collection and the store along a run

    The assumptions under which the properties above were stated (unique
    identifiers, agreement of the page with the backend, display order, time
    stamps in the past) are kept by every intent, provided the clock does
    not go back and gives a new identifier to each created task. *)

Lemma NoDup_ids_eq (l : list Todo) (a b : Todo) :
  NoDup (map id l) -> In a l -> In b l -> id a = id b -> a = b.
Proof.
  induction l as [|x l IH]; simpl; intros Hnd Ha Hb E; [destruct Ha|].
  inversion Hnd as [|? ? Hx Hl]; subst.
  destruct Ha as [<-|Ha], Hb as [<-|Hb]; auto.
  - exfalso. apply Hx. rewrite E. now apply in_map.
  - exfalso. apply Hx. rewrite <- E. now apply in_map.
Qed.

Lemma NoDup_ids_filter (p : Todo -> bool) (l : list Todo) :
  NoDup (map id l) -> NoDup (map id (List.filter p l)).
Proof.
  induction l as [|x l IH]; simpl; intros Hnd; [assumption|].
  inversion Hnd as [|? ? Hx Hl]; subst.
  destruct (p x); simpl; auto. constructor; auto.
  intros Hin. apply Hx. apply in_map_iff in Hin. destruct Hin as (y & <- & Hy).
  apply in_map. apply filter_In in Hy. tauto.
Qed.

Lemma splice1_incl {A} (i : nat) (l : list A) : incl (JsArray.splice1 i l) l.
Proof.
  revert i. induction l as [|x l IH]; intros [|i] y Hy; simpl in *; auto.
  destruct Hy as [<-|Hy]; [now left|]. right. now apply (IH i).
Qed.

Lemma NoDup_ids_splice1 (i : nat) (l : list Todo) :
  NoDup (map id l) -> NoDup (map id (JsArray.splice1 i l)).
Proof.
  revert i. induction l as [|x l IH]; intros [|i] Hnd; simpl in *; auto;
    inversion Hnd as [|? ? Hx Hl]; subst; auto.
  constructor; auto. intros Hin. apply Hx.
  apply in_map_iff in Hin. destruct Hin as (y & <- & Hy).
  apply in_map. now apply (splice1_incl i).
Qed.

Lemma assign_ids (i : nat) (v d : Todo) (l : list Todo) :
  (i < List.length l)%nat -> id v = id (nth i l d) ->
  map id (JsArray.assign i v l) = map id l.
Proof.
  revert i. induction l as [|x l IH]; intros [|i] Hlt E; simpl in *; try lia.
  - now rewrite E.
  - f_equal. apply IH; [lia|assumption].
Qed.

Lemma assign_In (i : nat) (v B : Todo) (l : list Todo) :
  In B (JsArray.assign i v l) -> B = v \/ In B l.
Proof.
  revert i. induction l as [|x l IH]; intros [|i] H; simpl in *; auto.
  - destruct H as [<-|H]; auto.
  - destruct H as [<-|H]; auto. destruct (IH i H); auto.
Qed.

Lemma assign_In_new (i : nat) (v : Todo) (l : list Todo) :
  (i < List.length l)%nat -> In v (JsArray.assign i v l).
Proof.
  revert i. induction l as [|x l IH]; intros [|i] Hlt; simpl in *; try lia.
  - now left.
  - right. apply IH. lia.
Qed.

Lemma replace_ids (id0 : string) (T' : Todo) (l : list Todo) :
  id T' = id0 ->
  map id (map (fun todo => if String.eqb (id todo) id0 then T' else todo) l)
  = map id l.
Proof.
  intros E. rewrite map_map. apply map_ext. intros a.
  destruct (String.eqb_spec (id a) id0); congruence.
Qed.

Lemma replace_In (id0 : string) (T' T : Todo) (l : list Todo) :
  In T (map (fun todo => if String.eqb (id todo) id0 then T' else todo) l) ->
  T = T' \/ (In T l /\ id T <> id0).
Proof.
  intros H. apply in_map_iff in H. destruct H as (a & E & Ha).
  destruct (String.eqb_spec (id a) id0); subst; auto.
Qed.

Lemma newerFirst_trans : Relations_1.Transitive newerFirst.
Proof. intros x y z. unfold newerFirst. lia. Qed.

Lemma sortedDesc_filter (p : Todo -> bool) (l : list Todo) :
  sortedDesc l -> sortedDesc (List.filter p l).
Proof.
  unfold sortedDesc. intros H.
  apply (Sorted_StronglySorted newerFirst_trans) in H.
  apply StronglySorted_Sorted.
  induction H as [|a l Hl IH Ha]; simpl; [constructor|].
  destruct (p a); auto. constructor; auto.
  rewrite Forall_forall in *. intros x Hx. apply Ha.
  apply filter_In in Hx. tauto.
Qed.

Lemma sortedDesc_createdAt (l l' : list Todo) :
  map createdAt l = map createdAt l' -> sortedDesc l -> sortedDesc l'.
Proof.
  unfold sortedDesc. revert l'.
  induction l as [|a l IH]; intros [|b l'] E H; simpl in *; try discriminate;
    [constructor|].
  injection E as Eab E. inversion H as [|? ? Hl Ha]; subst.
  constructor; [now apply IH|].
  destruct l as [|y l], l' as [|y' l'']; simpl in *; try discriminate;
    constructor.
  inversion Ha; subst. injection E as Ey _. unfold newerFirst in *. lia.
Qed.

Lemma wellKept_later (l ms : list Todo) (now now' : Z) :
  now <= now' -> wellKept l ms now -> wellKept l ms now'.
Proof.
  intros Hle (H1 & H2 & H3 & H4 & H5). repeat split; auto;
    destruct (H5 T H); lia.
Qed.

Lemma wellKept_fetch (l ms : list Todo) (now : Z) :
  wellKept l ms now ->
  wellKept (JsArray.sort TodoApi.byCreatedAtDesc ms) ms now.
Proof.
  intros (H1 & H2 & H3 & H4 & H5).
  pose proof (sort_perm ms) as Hp.
  assert (Hin : forall T, In T (JsArray.sort TodoApi.byCreatedAtDesc ms) ->
                          In T ms).
  { intros T HT. apply (Permutation_in T (Permutation_sym Hp) HT). }
  split; [assumption|].
  split; [apply (Permutation_NoDup (Permutation_map id Hp) H1)|].
  split; [intros T B HT HB E; apply (NoDup_ids_eq ms); auto|].
  split; [apply sort_sorted|].
  intros T [HT|HT]; apply H5; right; auto.
Qed.

Lemma wellKept_create (l ms : list Todo) (now now' : Z) (new : Todo) :
  wellKept l ms now ->
  ~ In (id new) (map id ms ++ map id l) ->
  now <= createdAt new -> createdAt new <= now' -> updatedAt new <= now' ->
  wellKept (new :: l) (ms ++ [new]) now'.
Proof.
  intros (H1 & H2 & H3 & H4 & H5) Hfresh Hc Hc' Hu.
  assert (Hms : ~ In (id new) (map id ms))
    by (intros H; apply Hfresh, in_or_app; now left).
  assert (Hl : ~ In (id new) (map id l))
    by (intros H; apply Hfresh, in_or_app; now right).
  split.
  { apply (Permutation_NoDup
             (Permutation_map id (Permutation_cons_append ms new))).
    simpl. now constructor. }
  split; [simpl; now constructor|].
  split.
  { intros T B [<-|HT] HB E; apply in_app_or in HB;
      destruct HB as [HB|[<-|[]]]; auto.
    - exfalso. apply Hms. rewrite <- E. now apply in_map.
    - exfalso. apply Hl. rewrite E. now apply in_map. }
  split.
  { constructor; [assumption|]. destruct l as [|y l]; constructor.
    unfold newerFirst. destruct (H5 y); [left; now left|lia]. }
  intros T [[<-|HT]|HT]; try lia.
  - destruct (H5 T); [now left|lia].
  - apply in_app_or in HT. destruct HT as [HT|[<-|[]]]; try lia.
    destruct (H5 T); [now right|lia].
Qed.

Lemma wellKept_update (l ms : list Todo) (now now' : Z) (id0 : string)
  (input : UpdateTodoInput.t) (i : nat) :
  wellKept l ms now -> now <= now' ->
  JsArray.findIndex (fun todo => String.eqb (id todo) id0) ms = Some i ->
  let T' := TodoApi.spread (nth i ms (mkTodo "" "" None false 0 0)) input now in
  wellKept (map (fun todo => if String.eqb (id todo) id0 then T' else todo) l)
           (JsArray.assign i T' ms) now'.
Proof.
  intros (H1 & H2 & H3 & H4 & H5) Hle Ei T'.
  destruct (findIndex_Some _ _ i (mkTodo "" "" None false 0 0) Ei)
    as (Hlt & Hp & _).
  apply String.eqb_eq in Hp.
  set (B0 := nth i ms (mkTodo "" "" None false 0 0)) in *.
  assert (HB0 : In B0 ms) by now apply nth_In.
  assert (HidT' : id T' = id0) by exact Hp.
  assert (Hids : map id (JsArray.assign i T' ms) = map id ms)
    by (apply (assign_ids i T' (mkTodo "" "" None false 0 0)); auto).
  assert (Hnew : forall B, In B (JsArray.assign i T' ms) -> id B = id0 ->
                           B = T').
  { intros B HB E. apply (NoDup_ids_eq (JsArray.assign i T' ms)); auto.
    - now rewrite Hids.
    - now apply assign_In_new.
    - congruence. }
  split; [now rewrite Hids|].
  split; [now rewrite replace_ids|].
  split.
  { intros T B HT HB E. apply replace_In in HT.
    destruct HT as [->|[HT Hne]]; [apply Hnew; congruence|].
    apply assign_In in HB. destruct HB as [->|HB]; [congruence|].
    now apply H3. }
  split.
  { apply (sortedDesc_createdAt l); [|assumption].
    rewrite map_map. apply map_ext_in. intros a Ha.
    destruct (String.eqb_spec (id a) id0) as [E|E]; [|reflexivity].
    rewrite <- (H3 a B0 Ha HB0); [reflexivity|congruence]. }
  assert (HT' : createdAt T' <= now' /\ updatedAt T' <= now').
  { simpl. destruct (H5 B0); [now right|lia]. }
  intros T [HT|HT].
  - apply replace_In in HT. destruct HT as [->|[HT _]]; [assumption|].
    destruct (H5 T); [now left|lia].
  - apply assign_In in HT. destruct HT as [->|HT]; [assumption|].
    destruct (H5 T); [now right|lia].
Qed.

Lemma wellKept_splice (l ms : list Todo) (now : Z) (i : nat) :
  wellKept l ms now -> wellKept l (JsArray.splice1 i ms) now.
Proof.
  intros (H1 & H2 & H3 & H4 & H5).
  repeat split; auto.
  - now apply NoDup_ids_splice1.
  - intros T B HT HB. apply H3; auto. now apply (splice1_incl i).
  - destruct H as [H|H]; [apply H5; now left|].
    apply H5. right. now apply (splice1_incl i).
  - destruct H as [H|H]; [apply H5; now left|].
    apply H5. right. now apply (splice1_incl i).
Qed.

Lemma wellKept_filter (l ms : list Todo) (now : Z) (p : Todo -> bool) :
  wellKept l ms now -> wellKept (List.filter p l) ms now.
Proof.
  intros (H1 & H2 & H3 & H4 & H5).
  assert (Hin : forall T, In T (List.filter p l) -> In T l)
    by (intros T HT; apply filter_In in HT; tauto).
  repeat split; auto.
  - now apply NoDup_ids_filter.
  - now apply sortedDesc_filter.
  - destruct H as [H|H]; apply H5; auto.
  - destruct H as [H|H]; apply H5; auto.
Qed.

Lemma deleteTodo_keeps (id0 : string) (w : World) :
  clock (snd (TodoApi.deleteTodo id0 w)) = clock w
  /\ clockRead (snd (TodoApi.deleteTodo id0 w)) = clockRead w
  /\ forall l now, wellKept l (mockTodos w) now ->
                   wellKept l (mockTodos (snd (TodoApi.deleteTodo id0 w))) now.
Proof.
  rewrite deleteTodo_eq. destruct (fires w); simpl; [auto|].
  destruct (JsArray.findIndex _ _) as [i|]; simpl; auto.
  split; [reflexivity|]. split; [reflexivity|].
  intros l now. apply wellKept_splice.
Qed.

Lemma deletions_keep (l : list Todo) (s : Index.System) :
  clock (Index.backend (snd (Index.promiseAll (deletions l) s)))
  = clock (Index.backend s)
  /\ clockRead (Index.backend (snd (Index.promiseAll (deletions l) s)))
     = clockRead (Index.backend s)
  /\ forall pl now,
       wellKept pl (mockTodos (Index.backend s)) now ->
       wellKept pl
         (mockTodos (Index.backend (snd (Index.promiseAll (deletions l) s))))
         now.
Proof.
  revert s. induction l as [|a l IH]; intros s; simpl; [auto|].
  rewrite await_eq. fold (deletions l).
  specialize (IH (Index.mkSystem (Index.page s)
                    (snd (TodoApi.deleteTodo (id a) (Index.backend s))))).
  pose proof (deleteTodo_keeps (id a) (Index.backend s)) as (Hc & Hr & Hk).
  destruct (Index.promiseAll (deletions l) _) as [os s2]; simpl in *.
  destruct IH as (IHc & IHr & IHk).
  split; [congruence|]. split; [congruence|].
  intros pl now H. apply IHk. now apply Hk.
Qed.

Lemma create_keeps (input : CreateTodoInput.t) (s : Index.System) :
  monotone (Index.backend s) -> invariant s -> mintsFreshId s ->
  invariant (snd (Index.handleCreateTodo input s))
  /\ clock (Index.backend (snd (Index.handleCreateTodo input s)))
     = clock (Index.backend s).
Proof.
  unfold invariant, monotone, mintsFreshId. intros Hmono Hinv Hfresh.
  rewrite handleCreateTodo_eq, createTodo_eq.
  destruct (fires _); simpl; [auto|]. split; [|reflexivity].
  set (k := clockRead (Index.backend s)) in *.
  pose proof (Hmono k (S k)). pose proof (Hmono (S k) (S (S (S k)))).
  pose proof (Hmono (S (S k)) (S (S (S k)))).
  apply (wellKept_create _ _ (clock (Index.backend s) k)); simpl; auto; lia.
Qed.

(** X13.  Every intent keeps the invariant, when the clock does not go back and,
    for a creation, the identifier taken from the clock is new. *)
Theorem invariant_kept (i : Intent) (s : Index.System) :
  monotone (Index.backend s) ->
  invariant s ->
  match i with
  | CreateTask _ | SubmitForm _ => mintsFreshId s
  | _ => True
  end ->
  invariant (settle i s) /\ monotone (Index.backend (settle i s)).
Proof.
  intros Hmono Hinv Hfresh.
  assert (Hclock : forall w', clock w' = clock (Index.backend s) -> monotone w').
  { intros w' E m n Hmn. rewrite E. now apply Hmono. }
  destruct i as [|input|id0 input|id0| |f]; simpl.
  - rewrite fetchTodos_eq, getAllTodos_eq.
    destruct (fires _); simpl; (split; [|now apply Hclock]).
    + exact Hinv.
    + unfold invariant; simpl. eapply wellKept_fetch. exact Hinv.
  - destruct (create_keeps input s Hmono Hinv Hfresh). auto.
  - rewrite handleUpdateTodo_eq, updateTodo_eq.
    destruct (fires _); simpl; [split; [exact Hinv|now apply Hclock]|].
    destruct (JsArray.findIndex _ _) as [k|] eqn:Ek; simpl;
      [|split; [exact Hinv|now apply Hclock]].
    split; [|now apply Hclock].
    unfold invariant; simpl.
    apply wellKept_update; [exact Hinv | apply Hmono; lia | exact Ek].
  - rewrite handleDeleteTodo_eq, deleteTodo_eq.
    destruct (fires _); simpl; [split; [exact Hinv|now apply Hclock]|].
    destruct (JsArray.findIndex _ _) as [k|] eqn:Ek; simpl;
      [|split; [exact Hinv|now apply Hclock]].
    split; [|now apply Hclock].
    unfold invariant; simpl. apply wellKept_filter, wellKept_splice.
    exact Hinv.
  - rewrite handleBulkDelete_eq; cbv zeta.
    destruct (deletions_keep
                (List.filter (fun todo => completed todo)
                             (Index.todos (Index.page s))) s)
      as (Hc & Hr & Hk).
    destruct (Index.promiseAll _ s) as [[r|e] s']; simpl in *;
      (split; [|now apply Hclock]); unfold invariant; simpl;
      rewrite Hc, Hr.
    + apply wellKept_filter, Hk. exact Hinv.
    + apply Hk. exact Hinv.
  - unfold AddToDoForm.handleSubmit.
    destruct (JsString.truthy _); simpl; [|auto].
    destruct (create_keeps
                (CreateTodoInput.mk (JsString.trim (AddToDoForm.title f))
                   (JsString.or_undefined
                      (JsString.trim (AddToDoForm.description f))))
                s Hmono Hinv Hfresh) as [Hi Hc].
    destruct (Index.handleCreateTodo _ s) as [[u|e] s']; simpl in *; auto.
Qed.

(** The page on mount, in front of the initial store, at any time after the
    initial tasks were written. *)
Lemma invariant_on_mount (w : World) :
  mockTodos w = TodoApi.initialTodos ->
  1705394700000 <= clock w (clockRead w) ->
  invariant (Index.mkSystem Index.initialState w).
Proof.
  intros Hm Hc. unfold invariant, wellKept; simpl. rewrite Hm.
  split; [repeat constructor; simpl; intuition discriminate|].
  split; [constructor|]. split; [intros T B []|]. split; [constructor|].
  intros T [[]|[<-|[<-|[<-|[]]]]]; simpl; lia.
Qed.

(** In a state that satisfies the invariant, a task of the collection meets
    the assumptions made on it above. *)
Lemma invariant_task (s : Index.System) (T : Todo) :
  invariant s -> In T (Index.todos (Index.page s)) ->
  (forall B, In B (mockTodos (Index.backend s)) -> id B = id T -> B = T)
  /\ NoDup (map id (Index.todos (Index.page s)))
  /\ sortedDesc (Index.todos (Index.page s))
  /\ createdAt T <= clock (Index.backend s) (clockRead (Index.backend s))
  /\ updatedAt T <= clock (Index.backend s) (clockRead (Index.backend s)).
Proof.
  intros (H1 & H2 & H3 & H4 & H5) HT.
  destruct (H5 T (or_introl HT)). repeat split; auto.
Qed.

(* ================================================================== *)
(** * Further properties of the code *)

(* ------------------------------------------------------------------ *)
(** ** The backend store *)

(** X1.  A rejected request leaves the store as it was, and [getAllTodos] never
    changes it: the array is copied before it is sorted. *)
Theorem rejected_request_keeps_store (w : World) (e : Exn) :
  mockTodos (snd (TodoApi.getAllTodos w)) = mockTodos w
  /\ (forall input,
        fst (TodoApi.createTodo input w) = Rejected e ->
        mockTodos (snd (TodoApi.createTodo input w)) = mockTodos w)
  /\ (forall id0 input,
        fst (TodoApi.updateTodo id0 input w) = Rejected e ->
        mockTodos (snd (TodoApi.updateTodo id0 input w)) = mockTodos w)
  /\ (forall id0,
        fst (TodoApi.deleteTodo id0 w) = Rejected e ->
        mockTodos (snd (TodoApi.deleteTodo id0 w)) = mockTodos w).
Proof.
  split; [rewrite getAllTodos_eq; now destruct (fires w)|].
  split; [intros input; rewrite createTodo_eq; destruct (fires w); simpl;
          [reflexivity|discriminate]|].
  split.
  - intros id0 input. rewrite updateTodo_eq. destruct (fires w); simpl; auto.
    destruct (JsArray.findIndex _ _); simpl; [discriminate|reflexivity].
  - intros id0. rewrite deleteTodo_eq. destruct (fires w); simpl; auto.
    destruct (JsArray.findIndex _ _); simpl; [discriminate|reflexivity].
Qed.

Lemma rejected_request_keeps_store_witness :
  let w := mkWorld TodoApi.initialTodos (fun _ => 1 # 2) 0 (fun _ => 0) 0 [] in
  fst (TodoApi.updateTodo "42" (UpdateTodoInput.mk None None (Some true)) w)
    = Rejected (ApiError "Todo not found" NOT_FOUND)
  /\ mockTodos (snd (TodoApi.updateTodo "42"
                       (UpdateTodoInput.mk None None (Some true)) w))
     = TodoApi.initialTodos.
Proof.
  intros w.
  assert (H : fst (TodoApi.updateTodo "42"
                     (UpdateTodoInput.mk None None (Some true)) w)
              = Rejected (ApiError "Todo not found" NOT_FOUND))
    by reflexivity.
  split; [exact H|].
  exact (proj1 (proj2 (proj2 (rejected_request_keeps_store w _))) _ _ H).
Defined.

Lemma nth_error_assign {A} (i j : nat) (v : A) (l : list A) :
  nth_error (JsArray.assign i v l) j
  = if (j =? i)%nat then (if (i <? List.length l)%nat then Some v else None)
    else nth_error l j.
Proof.
  revert i j. induction l as [|x l IH]; intros [|i] [|j]; simpl;
    try reflexivity.
  - now destruct (j =? i)%nat.
  - rewrite IH. reflexivity.
Qed.

Lemma length_assign {A} (i : nat) (v : A) (l : list A) :
  List.length (JsArray.assign i v l) = List.length l.
Proof.
  revert i. induction l as [|x l IH]; intros [|i]; simpl; auto.
Qed.

(** X2.  A successful [updateTodo] rewrites one slot of the store, the first one
    whose task carries the identifier: the store keeps its length, the
    order of its identifiers and its creation dates, the slot holds the
    returned task and every other slot holds what it held. *)
Theorem update_rewrites_one_slot
  (w : World) (id0 : string) (input : UpdateTodoInput.t)
  (response : ApiResponse Todo) :
  fst (TodoApi.updateTodo id0 input w) = Resolved response ->
  let ms := mockTodos w in
  let ms' := mockTodos (snd (TodoApi.updateTodo id0 input w)) in
  List.length ms' = List.length ms
  /\ map id ms' = map id ms
  /\ map createdAt ms' = map createdAt ms
  /\ exists i,
       nth_error ms' i = Some (data response)
       /\ (exists old, nth_error ms i = Some old /\ id old = id0)
       /\ (forall j old, (j < i)%nat -> nth_error ms j = Some old ->
                         id old <> id0)
       /\ (forall j, j <> i -> nth_error ms' j = nth_error ms j).
Proof.
  intros H ms ms'. subst ms ms'. rewrite updateTodo_eq in *.
  destruct (fires w); simpl in *; [discriminate|].
  destruct (JsArray.findIndex _ _) as [i|] eqn:Ei; simpl in *; [|discriminate].
  injection H as <-; simpl.
  set (d := mkTodo "" "" None false 0 0) in *.
  destruct (findIndex_Some _ _ i d Ei) as (Hlt & Hp & Hmin).
  apply String.eqb_eq in Hp.
  assert (Hmap : forall (B : Type) (f : Todo -> B) (v : Todo),
            f v = f (nth i (mockTodos w) d) ->
            map f (JsArray.assign i v (mockTodos w)) = map f (mockTodos w)).
  { intros B f v. generalize Hlt. generalize (mockTodos w). clear.
    intros l. revert i. induction l as [|x l IH]; intros [|i] Hlt E;
      simpl in *; try lia; [now rewrite E|].
    f_equal. apply IH; [lia|assumption]. }
  split; [apply length_assign|].
  split; [now apply Hmap|]. split; [now apply Hmap|].
  exists i. split.
  { rewrite nth_error_assign, Nat.eqb_refl.
    apply Nat.ltb_lt in Hlt. now rewrite Hlt. }
  split.
  { exists (nth i (mockTodos w) d). split; [now apply nth_error_nth'|exact Hp]. }
  split.
  { intros j old Hj Hold Hid. specialize (Hmin j Hj).
    rewrite (nth_error_nth _ _ d Hold) in Hmin. simpl in Hmin.
    rewrite Hid, String.eqb_refl in Hmin. discriminate. }
  intros j Hj. rewrite nth_error_assign.
  apply Nat.eqb_neq in Hj. now rewrite Hj.
Qed.

Lemma update_rewrites_one_slot_witness :
  let w := mkWorld TodoApi.initialTodos (fun _ => 1 # 2) 0
                   (fun n => 1750000000000 + Z.of_nat n) 0 [] in
  let input := UpdateTodoInput.mk (Some "Review") None None in
  map title (mockTodos (snd (TodoApi.updateTodo "2" input w)))
    = ["Complete project documentation"; "Review";
       "Design system implementation"]
  /\ map id (mockTodos (snd (TodoApi.updateTodo "2" input w)))
     = ["1"; "2"; "3"].
Proof.
  intros w input. split; [reflexivity|].
  exact (proj1 (proj2 (update_rewrites_one_slot w "2" input
                         (mkResponse
                            (TodoApi.spread
                               (nth 1 TodoApi.initialTodos
                                    (mkTodo "" "" None false 0 0))
                               input 1750000000000)
                            "Todo updated successfully" true)
                         eq_refl))).
Defined.

Lemma findIndex_split {A} (p : A -> bool) (l : list A) (i : nat) :
  JsArray.findIndex p l = Some i ->
  exists l1 x l2,
    l = (l1 ++ x :: l2)%list /\ List.length l1 = i /\ p x = true
    /\ (forall y, In y l1 -> p y = false)
    /\ JsArray.splice1 i l = (l1 ++ l2)%list.
Proof.
  revert i. induction l as [|a l IH]; simpl; intros i H; [discriminate|].
  destruct (p a) eqn:Ea.
  - injection H as <-. exists [], a, l. simpl. repeat split; auto.
    intros y [].
  - destruct (JsArray.findIndex p l) as [k|]; simpl in H; [|discriminate].
    injection H as <-.
    destruct (IH k eq_refl) as (l1 & x & l2 & -> & Hlen & Hx & Hl1 & Hs).
    exists (a :: l1), x, l2. simpl. rewrite Hs, Hlen. repeat split; auto.
    intros y [<-|Hy]; auto.
Qed.

Lemma deleteTodo_resolved
  (w : World) (id0 : string) (response : ApiResponse unit) :
  fst (TodoApi.deleteTodo id0 w) = Resolved response ->
  exists before T after,
    mockTodos w = (before ++ T :: after)%list
    /\ id T = id0
    /\ (forall todo, In todo before -> id todo <> id0)
    /\ mockTodos (snd (TodoApi.deleteTodo id0 w)) = (before ++ after)%list.
Proof.
  rewrite deleteTodo_eq. destruct (fires w); simpl; [discriminate|].
  destruct (JsArray.findIndex _ _) as [i|] eqn:Ei; simpl; [|discriminate].
  intros _.
  destruct (findIndex_split _ _ _ Ei) as (l1 & x & l2 & E & _ & Hx & Hl1 & Hs).
  exists l1, x, l2. repeat split; auto.
  - now apply String.eqb_eq.
  - intros todo Hin. apply String.eqb_neq. now apply Hl1.
Qed.

(** X3.  A successful [deleteTodo] takes out of the store the first task that
    carries the identifier, and nothing else: the tasks before it and after
    it stay, in their order. *)
Theorem delete_takes_first_match
  (w : World) (id0 : string) (response : ApiResponse unit) :
  fst (TodoApi.deleteTodo id0 w) = Resolved response ->
  exists before T after,
    mockTodos w = (before ++ T :: after)%list
    /\ id T = id0
    /\ (forall todo, In todo before -> id todo <> id0)
    /\ mockTodos (snd (TodoApi.deleteTodo id0 w)) = (before ++ after)%list.
Proof.
  rewrite deleteTodo_eq. destruct (fires w); simpl; [discriminate|].
  destruct (JsArray.findIndex _ _) as [i|] eqn:Ei; simpl; [|discriminate].
  intros _.
  destruct (findIndex_split _ _ _ Ei) as (l1 & x & l2 & E & _ & Hx & Hl1 & Hs).
  exists l1, x, l2. repeat split; auto.
  - now apply String.eqb_eq.
  - intros todo Hin. apply String.eqb_neq. now apply Hl1.
Qed.

Lemma delete_takes_first_match_witness :
  let A := mkTodo "7" "first" None false 1 1 in
  let B := mkTodo "8" "other" None false 2 2 in
  let A' := mkTodo "7" "second" None true 3 3 in
  let w := mkWorld [B; A; A'] (fun _ => 1 # 2) 0 (fun _ => 0) 0 [] in
  mockTodos (snd (TodoApi.deleteTodo "7" w)) = [B; A']
  /\ exists before T after,
       mockTodos w = (before ++ T :: after)%list
       /\ id T = "7"
       /\ (forall todo, In todo before -> id todo <> "7")
       /\ mockTodos (snd (TodoApi.deleteTodo "7" w)) = (before ++ after)%list.
Proof.
  intros A B A' w. split; [reflexivity|].
  exact (delete_takes_first_match w "7"
           (mkResponse tt "Todo deleted successfully" true) eq_refl).
Defined.



(* ------------------------------------------------------------------ *)
(** ** The order in which [getAllTodos] returns the tasks *)

Lemma insert_same_date (d : Z) (x : Todo) (l : list Todo) :
  List.filter (fun todo => createdAt todo =? d)
              (JsArray.insert TodoApi.byCreatedAtDesc x l)
  = List.filter (fun todo => createdAt todo =? d) (x :: l).
Proof.
  induction l as [|y l IH]; simpl; [reflexivity|].
  destruct (Z.leb_spec (TodoApi.byCreatedAtDesc x y) 0) as [Hle|Hgt];
    simpl; [reflexivity|].
  rewrite IH. simpl. unfold TodoApi.byCreatedAtDesc in Hgt.
  destruct (Z.eqb_spec (createdAt x) d), (Z.eqb_spec (createdAt y) d);
    try reflexivity. lia.
Qed.

Lemma sort_fixed (l : list Todo) :
  sortedDesc l -> JsArray.sort TodoApi.byCreatedAtDesc l = l.
Proof.
  unfold sortedDesc. induction l as [|a l IH]; simpl; intros H; [reflexivity|].
  inversion H as [|? ? Hl Ha]; subst. rewrite (IH Hl).
  destruct l as [|y l]; simpl; [reflexivity|].
  inversion Ha; subst. unfold newerFirst in *.
  unfold TodoApi.byCreatedAtDesc.
  destruct (Z.leb_spec (createdAt y - createdAt a) 0); [reflexivity|lia].
Qed.

(** X5.  The sort of [getAllTodos] is stable and leaves a sorted store alone:
    tasks created at the same instant come out in the order in which the
    store holds them, and a store that is already newest-first is returned
    as it is. *)
Theorem fetch_order_is_stable (w : World) (response : ApiResponse (list Todo)) :
  fst (TodoApi.getAllTodos w) = Resolved response ->
  (forall d, List.filter (fun todo => createdAt todo =? d) (data response)
             = List.filter (fun todo => createdAt todo =? d) (mockTodos w))
  /\ (sortedDesc (mockTodos w) -> data response = mockTodos w).
Proof.
  rewrite getAllTodos_eq. destruct (fires w); simpl; [discriminate|].
  intros [= <-]; simpl. split; [|apply sort_fixed].
  intros d. induction (mockTodos w) as [|x l IH]; simpl; [reflexivity|].
  rewrite insert_same_date. simpl. now rewrite IH.
Qed.

Lemma fetch_order_is_stable_witness :
  let A := mkTodo "a" "A" None false 5 5 in
  let B := mkTodo "b" "B" None false 9 9 in
  let C := mkTodo "c" "C" None false 5 5 in
  let w := mkWorld [A; B; C] (fun _ => 1 # 2) 0 (fun _ => 0) 0 [] in
  map id (data (mkResponse (JsArray.sort TodoApi.byCreatedAtDesc [A; B; C])
                           "Todos fetched successfully" true))
    = ["b"; "a"; "c"]
  /\ List.filter (fun todo => createdAt todo =? 5)
       (JsArray.sort TodoApi.byCreatedAtDesc [A; B; C]) = [A; C].
Proof.
  intros A B C w. split; [reflexivity|].
  exact (proj1 (fetch_order_is_stable w
                  (mkResponse (JsArray.sort TodoApi.byCreatedAtDesc [A; B; C])
                              "Todos fetched successfully" true) eq_refl) 5).
Defined.

(* ------------------------------------------------------------------ *)
(** ** What [createTodo] stores *)

Lemma trimStart_length (s : string) :
  (String.length (JsString.trimStart s) <= String.length s)%nat.
Proof.
  induction s as [|c s IH]; simpl; [lia|].
  destruct (JsString.isWhiteSpace c); simpl; lia.
Qed.

Lemma trimStart_idem (s : string) :
  JsString.trimStart (JsString.trimStart s) = JsString.trimStart s.
Proof.
  induction s as [|c s IH]; simpl; [reflexivity|].
  destruct (JsString.isWhiteSpace c) eqn:E; [exact IH|].
  simpl. now rewrite E.
Qed.

Lemma trimEnd_idem (s : string) :
  JsString.trimEnd (JsString.trimEnd s) = JsString.trimEnd s.
Proof.
  induction s as [|c s IH]; simpl; [reflexivity|].
  destruct (JsString.trimEnd s) as [|c' r] eqn:E.
  - destruct (JsString.isWhiteSpace c) eqn:Ec; simpl; [reflexivity|].
    now rewrite Ec.
  - simpl in *. now rewrite IH.
Qed.

Lemma trimStart_trimEnd (s : string) :
  JsString.trimStart s = s ->
  JsString.trimStart (JsString.trimEnd s) = JsString.trimEnd s.
Proof.
  destruct s as [|c s]; simpl; [reflexivity|].
  destruct (JsString.isWhiteSpace c) eqn:Ec.
  - intros H. pose proof (trimStart_length s) as Hl.
    rewrite H in Hl. simpl in Hl. lia.
  - intros _. destruct (JsString.trimEnd s); simpl; now rewrite Ec.
Qed.

Lemma trim_ends (s : string) :
  JsString.trimStart (JsString.trim s) = JsString.trim s
  /\ JsString.trimEnd (JsString.trim s) = JsString.trim s.
Proof.
  unfold JsString.trim. split.
  - apply trimStart_trimEnd, trimStart_idem.
  - apply trimEnd_idem.
Qed.

Lemma trim_idem (s : string) :
  JsString.trim (JsString.trim s) = JsString.trim s.
Proof.
  destruct (trim_ends s) as [Hs He]. unfold JsString.trim at 1.
  now rewrite Hs, He.
Qed.

(** X6.  The task that a successful [createTodo] stores is not completed, and
    its title and its description have no white space left at either end:
    trimming them again, from the left or from the right, changes
    nothing. *)
Theorem created_task_is_trimmed
  (input : CreateTodoInput.t) (w : World) (response : ApiResponse Todo) :
  fst (TodoApi.createTodo input w) = Resolved response ->
  completed (data response) = false
  /\ JsString.trimStart (title (data response)) = title (data response)
  /\ JsString.trimEnd (title (data response)) = title (data response)
  /\ exists d, description (data response) = Some d
               /\ JsString.trimStart d = d /\ JsString.trimEnd d = d.
Proof.
  rewrite createTodo_eq. destruct (fires w); simpl; [discriminate|].
  intros [= <-]; simpl.
  split; [reflexivity|]. split; [apply trim_ends|]. split; [apply trim_ends|].
  eexists. split; [reflexivity|].
  destruct (CreateTodoInput.description input) as [d|]; simpl;
    [|split; reflexivity].
  rewrite or_else_empty. apply trim_ends.
Qed.

Lemma created_task_is_trimmed_witness :
  let w := mkWorld [] (fun _ => 1 # 2) 0 (fun _ => 0) 0 [] in
  let input := CreateTodoInput.mk "  call  Ann " (Some " at noon  ") in
  title (newTodoIn w input) = "call  Ann"
  /\ JsString.trimEnd (title (newTodoIn w input)) = title (newTodoIn w input).
Proof.
  intros w input. split; [reflexivity|].
  exact (proj1 (proj2 (proj2
           (created_task_is_trimmed input w
              (mkResponse (newTodoIn w input) "Todo created successfully" true)
              eq_refl)))).
Defined.

Lemma ofInt_inj (a b : Z) : JsString.ofInt a = JsString.ofInt b -> a = b.
Proof.
  unfold JsString.ofInt. intros H.
  assert (Hn : forall z, Z.to_int z <> Decimal.Pos Decimal.Nil
                         /\ Z.to_int z <> Decimal.Neg Decimal.Nil).
  { intros [|p|p]; simpl; split; try discriminate;
      intros [= E]; now apply (DecimalPos.Unsigned.to_uint_nonnil p). }
  apply DecimalZ.to_int_inj.
  assert (E : Some (Z.to_int a) = Some (Z.to_int b)).
  { rewrite <- (NilZero.isi (Z.to_int a)), <- (NilZero.isi (Z.to_int b));
      try apply Hn. now rewrite H. }
  now injection E.
Qed.

(** X7.  Identifiers come from [Date.now()]: two tasks created one after the
    other carry the same identifier exactly when the clock gave the same
    reading to both, and then the identifiers of the store are no longer
    distinct. *)
Theorem created_ids_collide_iff_same_instant
  (w : World) (input1 input2 : CreateTodoInput.t)
  (r1 r2 : ApiResponse Todo) :
  fst (TodoApi.createTodo input1 w) = Resolved r1 ->
  fst (TodoApi.createTodo input2 (snd (TodoApi.createTodo input1 w)))
    = Resolved r2 ->
  (id (data r1) = id (data r2)
   <-> clock w (clockRead w) = clock w (3 + clockRead w)%nat)
  /\ (clock w (clockRead w) = clock w (3 + clockRead w)%nat ->
      ~ NoDup (map id
                 (mockTodos
                    (snd (TodoApi.createTodo input2
                            (snd (TodoApi.createTodo input1 w))))))).
Proof.
  rewrite (createTodo_eq input1 w).
  destruct (fires w); simpl; [discriminate|]. intros [= <-].
  rewrite createTodo_eq.
  destruct (fires _); simpl; [discriminate|]. intros [= <-]. simpl.
  split.
  - split; [apply ofInt_inj | intros ->; reflexivity].
  - intros E Hnd. rewrite !map_app in Hnd. simpl in Hnd.
    apply NoDup_remove_2 in Hnd. apply Hnd.
    rewrite app_nil_r. apply in_or_app. right. left. now rewrite E.
Qed.

Lemma created_ids_collide_iff_same_instant_witness :
  let w := mkWorld [] (fun _ => 1 # 2) 0 (fun _ => 1750000000000) 0 [] in
  let a := CreateTodoInput.mk "one" None in
  let b := CreateTodoInput.mk "two" None in
  map id (mockTodos (snd (TodoApi.createTodo b (snd (TodoApi.createTodo a w)))))
    = ["1750000000000"; "1750000000000"]
  /\ ~ NoDup (map id (mockTodos (snd (TodoApi.createTodo b
                                        (snd (TodoApi.createTodo a w)))))).
Proof.
  intros w a b. split; [reflexivity|].
  exact (proj2 (created_ids_collide_iff_same_instant w a b
                  (mkResponse (newTodoIn w a) "Todo created successfully" true)
                  (mkResponse (newTodoIn (snd (TodoApi.createTodo a w)) b)
                              "Todo created successfully" true)
                  eq_refl eq_refl) eq_refl).
Defined.

(* ------------------------------------------------------------------ *)
(** ** What the handlers report *)

(** X8.  [handleCreateTodo] and [handleUpdateTodo] are rejected exactly when the
    backend rejects the request, and with the same error (it is thrown
    again from the [catch] block); [handleDeleteTodo], [handleBulkDelete] and
    the fetch on mount are always resolved. *)
Theorem handlers_propagate_errors (s : Index.System) :
  (forall input,
     fst (Index.handleCreateTodo input s)
     = match fst (TodoApi.createTodo input (Index.backend s)) with
       | Resolved _ => Resolved tt
       | Rejected e => Rejected e
       end)
  /\ (forall id0 input,
        fst (Index.handleUpdateTodo id0 input s)
        = match fst (TodoApi.updateTodo id0 input (Index.backend s)) with
          | Resolved _ => Resolved tt
          | Rejected e => Rejected e
          end)
  /\ (forall id0, fst (Index.handleDeleteTodo id0 s) = Resolved tt)
  /\ fst (Index.handleBulkDelete s) = Resolved tt
  /\ fst (Index.fetchTodos s) = Resolved tt.
Proof.
  split; [intros input; rewrite handleCreateTodo_eq;
          now destruct (TodoApi.createTodo _ _) as [[r|e] w']|].
  split; [intros id0 input; rewrite handleUpdateTodo_eq;
          now destruct (TodoApi.updateTodo _ _ _) as [[r|e] w']|].
  split; [intros id0; rewrite handleDeleteTodo_eq;
          now destruct (TodoApi.deleteTodo _ _) as [[r|e] w']|].
  split; [rewrite handleBulkDelete_eq; cbv zeta;
          now destruct (Index.promiseAll _ _) as [[r|e] s']|].
  rewrite fetchTodos_eq; cbv zeta.
  now destruct (TodoApi.getAllTodos _) as [[r|e] w'].
Qed.

(** X9.  When the backend rejects a fetch, a create, an update or a delete with
    an [ApiError], the handler shows one more notification: the destructive
    toast "Error" whose text is the message of that error. *)
Theorem failure_is_reported_with_backend_message
  (s : Index.System) (msg : string) (code : ErrorCode) :
  let report :=
    (Index.toasts (Index.page s)
     ++ [Toast.mk "Error" msg Toast.destructive])%list in
  (fst (TodoApi.getAllTodos (Index.backend s)) = Rejected (ApiError msg code) ->
   Index.toasts (Index.page (snd (Index.fetchTodos s))) = report)
  /\ (forall input,
        fst (TodoApi.createTodo input (Index.backend s))
          = Rejected (ApiError msg code) ->
        Index.toasts (Index.page (snd (Index.handleCreateTodo input s)))
        = report)
  /\ (forall id0 input,
        fst (TodoApi.updateTodo id0 input (Index.backend s))
          = Rejected (ApiError msg code) ->
        Index.toasts (Index.page (snd (Index.handleUpdateTodo id0 input s)))
        = report)
  /\ (forall id0,
        fst (TodoApi.deleteTodo id0 (Index.backend s))
          = Rejected (ApiError msg code) ->
        Index.toasts (Index.page (snd (Index.handleDeleteTodo id0 s)))
        = report).
Proof.
  intros report. subst report.
  split; [rewrite fetchTodos_eq; cbv zeta;
          destruct (TodoApi.getAllTodos _) as [[r|e] w']; simpl;
          [discriminate | now intros [= ->]]|].
  split; [intros input; rewrite handleCreateTodo_eq; cbv zeta;
          destruct (TodoApi.createTodo _ _) as [[r|e] w']; simpl;
          [discriminate | now intros [= ->]]|].
  split; [intros id0 input; rewrite handleUpdateTodo_eq; cbv zeta;
          destruct (TodoApi.updateTodo _ _ _) as [[r|e] w']; simpl;
          [discriminate | now intros [= ->]]|].
  intros id0; rewrite handleDeleteTodo_eq; cbv zeta.
  destruct (TodoApi.deleteTodo _ _) as [[r|e] w']; simpl;
    [discriminate | now intros [= ->]].
Qed.

Lemma failure_is_reported_with_backend_message_witness :
  let w := mkWorld TodoApi.initialTodos (fun _ => 1 # 2) 0 (fun _ => 0) 0 [] in
  let s := Index.mkSystem (Index.mkState [] ALL Index.notLoading false []) w in
  Index.toasts (Index.page (snd (Index.handleDeleteTodo "nonexistent-id" s)))
  = [Toast.mk "Error" "Todo not found" Toast.destructive].
Proof.
  intros w s.
  exact (proj2 (proj2 (proj2
           (failure_is_reported_with_backend_message s "Todo not found"
              NOT_FOUND))) "nonexistent-id" eq_refl).
Defined.

(** X10.  A fetch that the backend rejects, and a bulk delete one of whose
    deletions is rejected, leave the collection of the page as it was. *)
Theorem failed_fetch_or_bulk_keeps_collection (s : Index.System) (e : Exn) :
  (fst (TodoApi.getAllTodos (Index.backend s)) = Rejected e ->
   Index.todos (Index.page (snd (Index.fetchTodos s)))
   = Index.todos (Index.page s))
  /\ (fst (Index.promiseAll
             (deletions (List.filter (fun todo => completed todo)
                                     (Index.todos (Index.page s)))) s)
        = Rejected e ->
      Index.todos (Index.page (snd (Index.handleBulkDelete s)))
      = Index.todos (Index.page s)).
Proof.
  split.
  - rewrite fetchTodos_eq; cbv zeta.
    destruct (TodoApi.getAllTodos _) as [[r|e'] w']; simpl;
      [discriminate|reflexivity].
  - rewrite handleBulkDelete_eq; cbv zeta.
    destruct (Index.promiseAll _ _) as [[r|e'] s']; simpl;
      [discriminate|reflexivity].
Qed.

Lemma failed_fetch_or_bulk_keeps_collection_witness :
  let A := mkTodo "10" "A" (Some "") true 2000 2000 in
  let w := mkWorld [A] (fun _ => 1 # 20) 0 (fun _ => 3000) 0 [] in
  let s := Index.mkSystem (Index.mkState [A] ALL Index.notLoading false []) w in
  Index.todos (Index.page (snd (Index.handleBulkDelete s))) = [A]
  /\ Index.todos (Index.page (snd (Index.fetchTodos s))) = [A].
Proof.
  intros A w s. split.
  - exact (proj2 (failed_fetch_or_bulk_keeps_collection s
                    (ApiError "Failed to delete todo. Please try again."
                              DELETE_ERROR)) eq_refl).
  - exact (proj1 (failed_fetch_or_bulk_keeps_collection s
                    (ApiError
                       "Failed to fetch todos. Please check your connection."
                       FETCH_ERROR)) eq_refl).
Defined.

(* ------------------------------------------------------------------ *)
(** ** What a bulk delete does to the backend *)

Lemma deleteTodo_spares (id0 : string) (w : World) (B : Todo) :
  In B (mockTodos w) -> id B <> id0 ->
  In B (mockTodos (snd (TodoApi.deleteTodo id0 w))).
Proof.
  intros HB Hne. rewrite deleteTodo_eq. destruct (fires w); simpl; auto.
  destruct (JsArray.findIndex _ _) as [i|] eqn:Ei; simpl; auto.
  destruct (findIndex_split _ _ _ Ei) as (l1 & x & l2 & E & _ & Hx & _ & ->).
  rewrite E in HB. apply in_app_or in HB. apply in_or_app.
  destruct HB as [HB|[<-|HB]]; auto.
  apply String.eqb_eq in Hx. contradiction.
Qed.

Lemma deleteTodo_incl (id0 : string) (w : World) (B : Todo) :
  In B (mockTodos (snd (TodoApi.deleteTodo id0 w))) -> In B (mockTodos w).
Proof.
  rewrite deleteTodo_eq. destruct (fires w); simpl; auto.
  destruct (JsArray.findIndex _ _) as [i|]; simpl; auto.
  apply splice1_incl.
Qed.

Lemma promiseAll_cons (a : Todo) (l : list Todo) (s : Index.System) :
  Index.backend (snd (Index.promiseAll (deletions (a :: l)) s))
  = Index.backend
      (snd (Index.promiseAll (deletions l)
              (Index.mkSystem (Index.page s)
                 (snd (TodoApi.deleteTodo (id a) (Index.backend s)))))).
Proof.
  simpl. rewrite await_eq. fold (deletions l).
  now destruct (Index.promiseAll (deletions l) _).
Qed.

Lemma deletions_spare (l : list Todo) (s : Index.System) (B : Todo) :
  In B (mockTodos (Index.backend s)) -> ~ In (id B) (map id l) ->
  In B (mockTodos (Index.backend (snd (Index.promiseAll (deletions l) s)))).
Proof.
  revert s. induction l as [|a l IH]; intros s HB Hn; [exact HB|].
  rewrite promiseAll_cons. simpl in Hn. apply IH; simpl; [|tauto].
  apply deleteTodo_spares; [assumption|]. intros E. apply Hn. now left.
Qed.

Lemma deletions_incl (l : list Todo) (s : Index.System) (B : Todo) :
  In B (mockTodos (Index.backend (snd (Index.promiseAll (deletions l) s)))) ->
  In B (mockTodos (Index.backend s)).
Proof.
  revert s. induction l as [|a l IH]; intros s HB; [exact HB|].
  rewrite promiseAll_cons in HB. apply IH in HB. simpl in HB.
  now apply deleteTodo_incl in HB.
Qed.

Lemma handleBulkDelete_backend (s : Index.System) :
  Index.backend (snd (Index.handleBulkDelete s))
  = Index.backend
      (snd (Index.promiseAll
              (deletions (List.filter (fun todo => completed todo)
                                      (Index.todos (Index.page s)))) s)).
Proof.
  rewrite handleBulkDelete_eq; cbv zeta.
  now destruct (Index.promiseAll _ _) as [[r|e] s'].
Qed.

(** X11.  Whatever the outcome of its deletions, a bulk delete adds no task to
    the store of the backend, and it leaves in the store every task whose
    identifier is not that of a completed task of the page. *)
Theorem bulk_delete_spares_other_tasks (s : Index.System) (B : Todo) :
  let snapshot := List.filter (fun todo => completed todo)
                              (Index.todos (Index.page s)) in
  let store' := mockTodos (Index.backend (snd (Index.handleBulkDelete s))) in
  (In B store' -> In B (mockTodos (Index.backend s)))
  /\ (In B (mockTodos (Index.backend s)) ->
      ~ In (id B) (map id snapshot) -> In B store').
Proof.
  intros snapshot store'. subst store'. rewrite handleBulkDelete_backend.
  split; [apply deletions_incl | apply deletions_spare].
Qed.

Lemma bulk_delete_spares_other_tasks_witness :
  let A := mkTodo "10" "A" (Some "") true 2000 2000 in
  let B := mkTodo "11" "B" (Some "") true 1000 1000 in
  let w := mkWorld [B; A] (fun _ => 1 # 2) 0 (fun _ => 3000) 0 [] in
  let s := Index.mkSystem (Index.mkState [A] ALL Index.notLoading false []) w in
  mockTodos (Index.backend (snd (Index.handleBulkDelete s))) = [B]
  /\ In B (mockTodos (Index.backend (snd (Index.handleBulkDelete s)))).
Proof.
  intros A B w s. split; [reflexivity|].
  apply (proj2 (bulk_delete_spares_other_tasks s B)).
  - now left.
  - simpl. intros [E|[]]. discriminate E.
Defined.

Lemma deleteTodo_absent
  (w : World) (id0 : string) (response : ApiResponse unit) :
  NoDup (map id (mockTodos w)) ->
  fst (TodoApi.deleteTodo id0 w) = Resolved response ->
  ~ present id0 (mockTodos (snd (TodoApi.deleteTodo id0 w))).
Proof.
  intros Hnd H.
  destruct (deleteTodo_resolved w id0 response H)
    as (l1 & T & l2 & E & HT & Hl1 & E').
  rewrite E'. intros (x & Hx & Hid).
  rewrite E, map_app in Hnd. simpl in Hnd.
  apply NoDup_remove_2 in Hnd. apply Hnd.
  rewrite <- map_app, HT, <- Hid. now apply in_map.
Qed.

(** X12.  The gap that a bulk delete can open: when the deletion of the first
    completed task is resolved and a later one is rejected, the page keeps
    its whole collection, the first completed task included, although the
    backend (with distinct identifiers) no longer holds a task with that
    identifier. *)
Theorem partial_bulk_delete_leaves_gap
  (s : Index.System) (a : Todo) (rest : list Todo)
  (response : ApiResponse unit) (e : Exn) :
  List.filter (fun todo => completed todo) (Index.todos (Index.page s))
    = a :: rest ->
  NoDup (map id (mockTodos (Index.backend s))) ->
  fst (TodoApi.deleteTodo (id a) (Index.backend s)) = Resolved response ->
  fst (Index.promiseAll (deletions (a :: rest)) s) = Rejected e ->
  Index.todos (Index.page (snd (Index.handleBulkDelete s)))
    = Index.todos (Index.page s)
  /\ In a (Index.todos (Index.page (snd (Index.handleBulkDelete s))))
  /\ ~ present (id a)
         (mockTodos (Index.backend (snd (Index.handleBulkDelete s)))).
Proof.
  intros Hsnap Hnd Hfirst Hall.
  assert (Hpage : Index.todos (Index.page (snd (Index.handleBulkDelete s)))
                  = Index.todos (Index.page s)).
  { rewrite handleBulkDelete_eq; cbv zeta. rewrite Hsnap.
    destruct (Index.promiseAll _ _) as [[r|e'] s']; simpl in *;
      [discriminate|reflexivity]. }
  split; [exact Hpage|]. split.
  - rewrite Hpage.
    assert (Ha : In a (List.filter (fun todo => completed todo)
                                   (Index.todos (Index.page s))))
      by (rewrite Hsnap; now left).
    apply filter_In in Ha. tauto.
  - rewrite handleBulkDelete_backend, Hsnap, promiseAll_cons.
    intros (x & Hx & Hid). apply deletions_incl in Hx. simpl in Hx.
    apply (deleteTodo_absent _ _ _ Hnd Hfirst). now exists x.
Qed.

(** Two completed tasks; the second deletion meets a simulated failure. *)
Lemma partial_bulk_delete_leaves_gap_witness :
  let A := mkTodo "10" "A" (Some "") true 2000 2000 in
  let B := mkTodo "11" "B" (Some "") true 1000 1000 in
  let w := mkWorld [B; A]
                   (fun n => if (n =? 1)%nat then 1 # 20 else 1 # 2) 0
                   (fun _ => 3000) 0 [] in
  let s := Index.mkSystem (Index.mkState [A; B] ALL Index.notLoading false []) w in
  Index.todos (Index.page (snd (Index.handleBulkDelete s))) = [A; B]
  /\ mockTodos (Index.backend (snd (Index.handleBulkDelete s))) = [B]
  /\ ~ present "10"
         (mockTodos (Index.backend (snd (Index.handleBulkDelete s)))).
Proof.
  intros A B w s.
  assert (Hnd : NoDup (map id (mockTodos (Index.backend s)))).
  { repeat constructor; simpl; intuition discriminate. }
  split; [reflexivity|]. split; [reflexivity|].
  exact (proj2 (proj2
           (partial_bulk_delete_leaves_gap s A [B]
              (mkResponse tt "Todo deleted successfully" true)
              (ApiError "Failed to delete todo. Please try again."
                        DELETE_ERROR)
              eq_refl Hnd eq_refl eq_refl))).
Defined.

(* ------------------------------------------------------------------ *)
(** ** The page and the backend along a run, continued *)

Lemma invariant_kept_witness :
  let w := mkWorld TodoApi.initialTodos (fun _ => 1 # 2) 0
                   (fun n => 1750000000000 + Z.of_nat n) 0 [] in
  let s0 := Index.mkSystem Index.initialState w in
  let s1 := settle FetchAll s0 in
  let s2 := settle (CreateTask (CreateTodoInput.mk "Water the plants" None)) s1 in
  monotone (Index.backend s0) /\ invariant s0
  /\ mintsFreshId s1
  /\ invariant s2
  /\ map id (Index.todos (Index.page s2)) = ["1750000000000"; "3"; "1"; "2"].
Proof.
  intros w s0.
  assert (Hm : monotone (Index.backend s0)).
  { intros m n H.
    change (1750000000000 + Z.of_nat m <= 1750000000000 + Z.of_nat n). lia. }
  assert (Hi : invariant s0).
  { apply invariant_on_mount; [reflexivity|].
    change (1705394700000 <= 1750000000000 + 0). lia. }
  intros s1 s2.
  assert (Hf : mintsFreshId s1).
  { unfold mintsFreshId. vm_compute. intuition discriminate. }
  destruct (invariant_kept FetchAll s0 Hm Hi I) as [Hi1 Hm1].
  split; [exact Hm|]. split; [exact Hi|]. split; [exact Hf|].
  split; [|reflexivity].
  exact (proj1 (invariant_kept
                  (CreateTask (CreateTodoInput.mk "Water the plants" None))
                  s1 Hm1 Hi1 Hf)).
Defined.

Lemma assign_split {A} (v x : A) (l1 l2 : list A) :
  JsArray.assign (List.length l1) v (l1 ++ x :: l2) = (l1 ++ v :: l2)%list.
Proof. induction l1 as [|a l1 IH]; simpl; [reflexivity|]. now rewrite IH. Qed.

Lemma findIndex_assign {A} (p : A -> bool) (l : list A) (i : nat) (v : A) :
  JsArray.findIndex p l = Some i ->
  exists l1 x l2,
    l = (l1 ++ x :: l2)%list /\ p x = true
    /\ (forall y, In y l1 -> p y = false)
    /\ JsArray.assign i v l = (l1 ++ v :: l2)%list
    /\ nth i l x = x.
Proof.
  intros H.
  destruct (findIndex_split p l i H) as (l1 & x & l2 & -> & <- & Hx & Hl1 & _).
  exists l1, x, l2. repeat split; auto.
  - apply assign_split.
  - rewrite app_nth2, Nat.sub_diag; [reflexivity|lia].
Qed.

Lemma sync_update (l ms : list Todo) (id0 : string) (T' : Todo) (i : nat) :
  (forall T, In T l <-> In T ms) ->
  NoDup (map id ms) -> id T' = id0 ->
  JsArray.findIndex (fun todo => String.eqb (id todo) id0) ms = Some i ->
  forall T,
    In T (map (fun todo => if String.eqb (id todo) id0 then T' else todo) l)
    <-> In T (JsArray.assign i T' ms).
Proof.
  intros Hsync Hnd HT' Ei T.
  destruct (findIndex_assign _ _ _ T' Ei) as (l1 & x & l2 & E & Hx & _ & -> & _).
  apply String.eqb_eq in Hx.
  assert (Hother : forall B, In B (l1 ++ l2) -> id B <> id0).
  { intros B HB Hid. rewrite E, map_app in Hnd. simpl in Hnd.
    apply NoDup_remove_2 in Hnd. apply Hnd.
    rewrite <- map_app, Hx, <- Hid. now apply in_map. }
  split.
  - intros H. apply replace_In in H. destruct H as [->|[HT Hne]].
    + apply in_or_app. right. now left.
    + apply Hsync in HT. rewrite E in HT. apply in_app_or in HT.
      apply in_or_app. destruct HT as [HT|[<-|HT]]; auto.
      * contradiction.
      * right. now right.
  - intros H. apply in_map_iff. apply in_app_or in H.
    assert (Hx' : In x l) by (apply Hsync; rewrite E; apply in_or_app;
                              right; now left).
    assert (Hkeep : In T (l1 ++ l2) ->
              exists y, (if String.eqb (id y) id0 then T' else y) = T /\ In y l).
    { intros HT. exists T. split.
      - apply Hother in HT. apply String.eqb_neq in HT. now rewrite HT.
      - apply Hsync. rewrite E. apply in_app_or in HT. apply in_or_app.
        destruct HT; auto. right. now right. }
    destruct H as [H|[<-|H]].
    + apply Hkeep, in_or_app. now left.
    + exists x. split; [|assumption].
      apply String.eqb_eq in Hx. now rewrite Hx.
    + apply Hkeep, in_or_app. now right.
Qed.

Lemma sync_delete (l ms : list Todo) (id0 : string) (i : nat) :
  (forall T, In T l <-> In T ms) ->
  NoDup (map id ms) ->
  JsArray.findIndex (fun todo => String.eqb (id todo) id0) ms = Some i ->
  forall T,
    In T (List.filter (fun todo => negb (String.eqb (id todo) id0)) l)
    <-> In T (JsArray.splice1 i ms).
Proof.
  intros Hsync Hnd Ei T.
  destruct (findIndex_split _ _ _ Ei) as (l1 & x & l2 & E & _ & Hx & _ & ->).
  apply String.eqb_eq in Hx.
  rewrite filter_In, negb_true_iff, String.eqb_neq, Hsync, E.
  split.
  - intros [HT Hne]. apply in_app_or in HT. apply in_or_app.
    destruct HT as [HT|[<-|HT]]; auto. contradiction.
  - intros HT. split.
    + apply in_app_or in HT. apply in_or_app.
      destruct HT; auto. right. now right.
    + intros Hid. rewrite E, map_app in Hnd. simpl in Hnd.
      apply NoDup_remove_2 in Hnd. apply Hnd.
      rewrite <- map_app, Hx, <- Hid. now apply in_map.
Qed.

Lemma promiseAll_cons_resolved (a : Todo) (l : list Todo) (s : Index.System)
  (rs : list (ApiResponse unit)) :
  fst (Index.promiseAll (deletions (a :: l)) s) = Resolved rs ->
  (exists r, fst (TodoApi.deleteTodo (id a) (Index.backend s)) = Resolved r)
  /\ exists rs',
       fst (Index.promiseAll (deletions l)
              (Index.mkSystem (Index.page s)
                 (snd (TodoApi.deleteTodo (id a) (Index.backend s)))))
       = Resolved rs'.
Proof.
  simpl. rewrite await_eq. fold (deletions l).
  destruct (Index.promiseAll (deletions l) _) as [os s2]; simpl.
  destruct (fst (TodoApi.deleteTodo (id a) (Index.backend s))) as [r|e];
    [|discriminate].
  destruct os as [rs'|e]; [|discriminate].
  intros _. split; eauto.
Qed.

Lemma deletions_resolved_store (l : list Todo) (s : Index.System)
  (rs : list (ApiResponse unit)) :
  fst (Index.promiseAll (deletions l) s) = Resolved rs ->
  NoDup (map id (mockTodos (Index.backend s))) ->
  forall B,
    In B (mockTodos (Index.backend (snd (Index.promiseAll (deletions l) s))))
    <-> In B (mockTodos (Index.backend s)) /\ ~ In (id B) (map id l).
Proof.
  revert s rs. induction l as [|a l IH]; intros s rs H Hnd B.
  - simpl. tauto.
  - destruct (promiseAll_cons_resolved a l s rs H) as [[r Hr] [rs' Hrs']].
    rewrite promiseAll_cons.
    assert (Hnd1 : NoDup (map id (mockTodos
                     (snd (TodoApi.deleteTodo (id a) (Index.backend s)))))).
    { destruct (deleteTodo_resolved _ _ _ Hr)
        as (l1 & T & l2 & E & _ & _ & ->).
      rewrite E, map_app in Hnd. simpl in Hnd.
      apply NoDup_remove_1 in Hnd. now rewrite map_app. }
    rewrite (IH _ rs' Hrs' Hnd1 B). simpl. split.
    + intros [HB Hn]. split; [now apply deleteTodo_incl in HB|].
      intros [E|Hin]; [|contradiction].
      apply (deleteTodo_absent _ _ _ Hnd Hr). now exists B.
    + intros [HB Hn]. split; [|tauto].
      apply deleteTodo_spares; [assumption|]. intros E. apply Hn. now left.
Qed.

Lemma invariant_on_fetch (s : Index.System) :
  monotone (Index.backend s) -> invariant s ->
  invariant (snd (Index.fetchTodos s))
  /\ monotone (Index.backend (snd (Index.fetchTodos s))).
Proof.
  intros Hmono Hinv.
  assert (Hclock : forall w', clock w' = clock (Index.backend s) -> monotone w').
  { intros w' E m n Hmn. rewrite E. now apply Hmono. }
  rewrite fetchTodos_eq, getAllTodos_eq.
  destruct (fires _); simpl; (split; [|now apply Hclock]).
  - exact Hinv.
  - unfold invariant; simpl. eapply wellKept_fetch. exact Hinv.
Qed.

Lemma create_synced (input : CreateTodoInput.t) (s : Index.System) :
  synced s -> synced (snd (Index.handleCreateTodo input s)).
Proof.
  unfold synced. intros Hs T. rewrite handleCreateTodo_eq, createTodo_eq.
  destruct (fires _); simpl; [apply Hs|].
  rewrite in_app_iff. simpl. rewrite Hs. tauto.
Qed.

(** X14.  The page shows the tasks that the backend holds.  A successful fetch
    makes it so, whatever the page showed before.  From then on, in a state
    that satisfies the invariant, every intent keeps it so, whatever its
    outcome; only a bulk delete one of whose deletions is rejected may break
    it. *)
Theorem synced_kept (i : Intent) (s : Index.System) :
  (forall response,
     fst (TodoApi.getAllTodos (Index.backend s)) = Resolved response ->
     synced (settle FetchAll s))
  /\ (invariant s -> synced s ->
      match i with
      | BulkDeleteCompleted =>
          isResolved
            (fst (Index.promiseAll
                    (deletions (List.filter (fun todo => completed todo)
                                            (Index.todos (Index.page s)))) s))
          = true
      | _ => True
      end ->
      synced (settle i s)).
Proof.
  split.
  { intros response H T. simpl. rewrite fetchTodos_eq, getAllTodos_eq in *.
    destruct (fires _); simpl in *; [discriminate|].
    split; intros HT.
    - apply (Permutation_in T (Permutation_sym (sort_perm _)) HT).
    - apply (Permutation_in T (sort_perm _) HT). }
  intros (Hndm & Hndl & _) Hs Hok.
  destruct i as [|input|id0 input|id0| |f]; simpl.
  - intros T. rewrite fetchTodos_eq, getAllTodos_eq.
    destruct (fires _); simpl; [apply Hs|].
    split; intros HT.
    + apply (Permutation_in T (Permutation_sym (sort_perm _)) HT).
    + apply (Permutation_in T (sort_perm _) HT).
  - now apply create_synced.
  - intros T. rewrite handleUpdateTodo_eq, updateTodo_eq.
    destruct (fires _); simpl; [apply Hs|].
    destruct (JsArray.findIndex _ _) as [k|] eqn:Ek; simpl; [|apply Hs].
    apply sync_update; auto.
    destruct (findIndex_Some _ _ k (mkTodo "" "" None false 0 0) Ek)
      as (_ & Hp & _).
    now apply String.eqb_eq in Hp.
  - intros T. rewrite handleDeleteTodo_eq, deleteTodo_eq.
    destruct (fires _); simpl; [apply Hs|].
    destruct (JsArray.findIndex _ _) as [k|] eqn:Ek; simpl; [|apply Hs].
    now apply sync_delete.
  - intros T. rewrite handleBulkDelete_backend.
    rewrite handleBulkDelete_eq; cbv zeta.
    pose proof (deletions_resolved_store
                  (List.filter (fun todo => completed todo)
                               (Index.todos (Index.page s))) s) as Hstore.
    destruct (Index.promiseAll _ s) as [[rs|e] s'] eqn:E; simpl in *;
      [|discriminate].
    rewrite (Hstore rs eq_refl Hndm T). unfold synced in Hs.
    rewrite filter_In, negb_true_iff, <- Hs. split.
    + intros [HT Hc]. split; [assumption|].
      intros Hin. apply in_map_iff in Hin. destruct Hin as (c & Hid & Hcin).
      apply filter_In in Hcin. destruct Hcin as [Hcl Hcc].
      rewrite (NoDup_ids_eq _ c T Hndl Hcl HT Hid) in Hcc. congruence.
    + intros [HT Hn]. split; [assumption|].
      destruct (completed T) eqn:Ec; [|reflexivity].
      exfalso. apply Hn. apply in_map. apply filter_In. now split.
  - unfold AddToDoForm.handleSubmit.
    destruct (JsString.truthy _); simpl; [|exact Hs].
    pose proof (create_synced
                  (CreateTodoInput.mk (JsString.trim (AddToDoForm.title f))
                     (JsString.or_undefined
                        (JsString.trim (AddToDoForm.description f))))
                  s Hs) as Hc.
    now destruct (Index.handleCreateTodo _ s) as [[u|e] s'].
Qed.

(** The fetch on mount, then the deletion of task ["2"]. *)
Lemma synced_kept_witness :
  let w := mkWorld TodoApi.initialTodos (fun _ => 1 # 2) 0
                   (fun n => 1750000000000 + Z.of_nat n) 0 [] in
  let s0 := Index.mkSystem Index.initialState w in
  let s1 := settle FetchAll s0 in
  invariant s1 /\ synced s1 /\ synced (settle (DeleteTask "2") s1)
  /\ map id (Index.todos (Index.page (settle (DeleteTask "2") s1))) = ["3"; "1"]
  /\ map id (mockTodos (Index.backend (settle (DeleteTask "2") s1)))
     = ["1"; "3"].
Proof.
  intros w s0.
  assert (Hm : monotone (Index.backend s0)).
  { intros m n H.
    change (1750000000000 + Z.of_nat m <= 1750000000000 + Z.of_nat n). lia. }
  assert (Hi : invariant s0).
  { apply invariant_on_mount; [reflexivity|].
    change (1705394700000 <= 1750000000000 + 0). lia. }
  intros s1.
  assert (Hi1 : invariant s1) by exact (proj1 (invariant_on_fetch s0 Hm Hi)).
  assert (Hs1 : synced s1).
  { exact (proj1 (synced_kept FetchAll s0)
             (mkResponse (JsArray.sort TodoApi.byCreatedAtDesc
                                       TodoApi.initialTodos)
                         "Todos fetched successfully" true) eq_refl). }
  split; [exact Hi1|]. split; [exact Hs1|].
  split; [exact (proj2 (synced_kept (DeleteTask "2") s1) Hi1 Hs1 I)|].
  split; reflexivity.
Defined.

(* ------------------------------------------------------------------ *)
(** ** The list component *)

Lemma filter_length_split {A} (p : A -> bool) (l : list A) :
  (List.length (List.filter p l)
   + List.length (List.filter (fun x => negb (p x)) l) = List.length l)%nat.
Proof.
  induction l as [|a l IH]; simpl; [reflexivity|].
  destruct (p a); simpl; lia.
Qed.

(** X15.  The numbers on the three filter buttons are the sizes of the lists
    that the buttons show: [activeCount], computed as a difference, is the
    number of tasks that are not completed, and the counts add up to the
    size of the collection. *)
Theorem badge_counts_match_views (todos : list Todo) :
  List.length (ToDoList.filteredTodos todos ALL) = List.length todos
  /\ List.length (ToDoList.filteredTodos todos ACTIVE)
     = ToDoList.activeCount todos
  /\ List.length (ToDoList.filteredTodos todos COMPLETED)
     = ToDoList.completedCount todos
  /\ (ToDoList.activeCount todos + ToDoList.completedCount todos
      = List.length todos)%nat
  /\ (ToDoList.bulkActionsShown todos = true
      <-> ToDoList.filteredTodos todos COMPLETED <> []).
Proof.
  unfold ToDoList.bulkActionsShown, ToDoList.filteredTodos,
    ToDoList.activeCount, ToDoList.completedCount.
  pose proof (filter_length_split (fun todo => completed todo) todos) as H.
  cbv beta iota in *.
  split.
  { clear H. induction todos as [|a l IH]; simpl; congruence. }
  split; [lia|]. split; [reflexivity|]. split; [lia|].
  rewrite Nat.ltb_lt.
  destruct (List.filter (fun todo => completed todo) todos); simpl; split.
  - intros H0. exfalso. lia.
  - intros H0. now contradiction H0.
  - discriminate.
  - intros _. lia.
Qed.

Lemma filter_idem {A} (p : A -> bool) (l : list A) :
  List.filter p (List.filter p l) = List.filter p l.
Proof.
  rewrite filter_filter. apply filter_ext. intros a. now destruct (p a).
Qed.

(** X16.  Filtering keeps the display order, and applying a filter twice shows
    what applying it once shows; the completed tasks among the active ones
    are none. *)
Theorem filtered_view_keeps_order (todos : list Todo) (f : TodoFilter) :
  (sortedDesc todos -> sortedDesc (ToDoList.filteredTodos todos f))
  /\ ToDoList.filteredTodos (ToDoList.filteredTodos todos f) f
     = ToDoList.filteredTodos todos f
  /\ ToDoList.filteredTodos (ToDoList.filteredTodos todos ACTIVE) COMPLETED
     = [].
Proof.
  unfold ToDoList.filteredTodos.
  split; [apply sortedDesc_filter|]. split; [apply filter_idem|].
  rewrite filter_filter. apply filter_none. intros x _.
  now destruct (completed x).
Qed.

Lemma filtered_view_keeps_order_witness :
  let A := mkTodo "a" "A" None false 9 9 in
  let B := mkTodo "b" "B" None true 7 7 in
  let C := mkTodo "c" "C" None false 5 5 in
  sortedDesc [A; B; C]
  /\ ToDoList.filteredTodos [A; B; C] ACTIVE = [A; C]
  /\ sortedDesc (ToDoList.filteredTodos [A; B; C] ACTIVE).
Proof.
  intros A B C.
  assert (H : sortedDesc [A; B; C]).
  { repeat constructor; apply Z.leb_le; reflexivity. }
  split; [exact H|]. split; [reflexivity|].
  exact (proj1 (filtered_view_keeps_order [A; B; C] ACTIVE) H).
Defined.

Lemma filter_complement_nil {A} (p : A -> bool) (l : list A) :
  List.filter p l = [] -> List.filter (fun x => negb (p x)) l = l.
Proof.
  induction l as [|a l IH]; simpl; [reflexivity|].
  destruct (p a); simpl; [discriminate|]. intros H. now rewrite IH.
Qed.

(** X17.  The number shown on the button "Clear Completed" is the number of
    delete requests that [handleBulkDelete] sends; when they are all
    resolved, the collection is left with [activeCount] tasks and the
    notification names that number.  With no completed task, nothing is
    sent and the collection stays as it is. *)
Theorem clear_completed_count (s : Index.System) :
  let todos := Index.todos (Index.page s) in
  let s' := snd (Index.handleBulkDelete s) in
  (exists sent,
     requests (Index.backend s') = (requests (Index.backend s) ++ sent)%list
     /\ List.length sent = ToDoList.completedCount todos)
  /\ (forall responses,
        fst (Index.promiseAll
               (deletions (List.filter (fun todo => completed todo) todos)) s)
          = Resolved responses ->
        List.length (Index.todos (Index.page s')) = ToDoList.activeCount todos
        /\ Index.toasts (Index.page s')
           = (Index.toasts (Index.page s)
              ++ [Toast.mk "Success"
                    (JsString.ofInt (Z.of_nat (ToDoList.completedCount todos))
                     ++ " completed task(s) deleted!")
                    Toast.default])%list)
  /\ (ToDoList.completedCount todos = 0%nat ->
      requests (Index.backend s') = requests (Index.backend s)
      /\ Index.todos (Index.page s') = todos
      /\ mockTodos (Index.backend s') = mockTodos (Index.backend s)).
Proof.
  intros todos s'. subst s' todos.
  set (todos := Index.todos (Index.page s)).
  set (snapshot := List.filter (fun todo => completed todo) todos).
  pose proof (promiseAll_deletions snapshot s) as [_ Hreq].
  pose proof (handleBulkDelete_backend s) as Hb. fold todos snapshot in Hb.
  split.
  { exists (map (fun todo => ReqDelete (id todo)) snapshot).
    rewrite Hb. split; [exact Hreq|]. now rewrite length_map. }
  split.
  { intros responses H. rewrite handleBulkDelete_eq; cbv zeta.
    fold todos snapshot.
    destruct (Index.promiseAll _ s) as [[r|e] s0]; simpl in *;
      [|discriminate].
    split; [|reflexivity].
    unfold ToDoList.activeCount, ToDoList.completedCount.
    pose proof (filter_length_split (fun todo => completed todo) todos) as Hl.
    cbv beta in Hl. fold snapshot in Hl |- *. lia. }
  intros H0. unfold ToDoList.completedCount in H0. fold snapshot in H0.
  assert (Hs : snapshot = []) by (now destruct snapshot).
  rewrite Hb, Hreq, handleBulkDelete_eq; cbv zeta. fold todos snapshot.
  rewrite Hs. simpl. rewrite app_nil_r.
  split; [reflexivity|]. split; [|reflexivity].
  now apply (filter_complement_nil (fun todo => completed todo)).
Qed.

Lemma clear_completed_count_witness :
  let A := mkTodo "10" "A" (Some "") true 2000 2000 in
  let B := mkTodo "11" "B" (Some "") false 1000 1000 in
  let w := mkWorld [B; A] (fun _ => 1 # 2) 0 (fun _ => 3000) 0 [] in
  let s := Index.mkSystem (Index.mkState [A; B] ALL Index.notLoading false []) w in
  ToDoList.completedCount [A; B] = 1%nat
  /\ List.length (Index.todos (Index.page (snd (Index.handleBulkDelete s))))
     = ToDoList.activeCount [A; B]
  /\ Index.toasts (Index.page (snd (Index.handleBulkDelete s)))
     = [Toast.mk "Success" "1 completed task(s) deleted!" Toast.default].
Proof.
  intros A B w s. split; [reflexivity|].
  exact (proj1 (proj2 (clear_completed_count s))
           [mkResponse tt "Todo deleted successfully" true] eq_refl).
Defined.

(* ------------------------------------------------------------------ *)
(** ** The add-task form *)

Lemma truthy_nonempty (s : string) : JsString.truthy s = true <-> s <> "".
Proof. destruct s; simpl; split; congruence. Qed.

Lemma or_undefined_or_else (s : string) :
  JsString.opt_or_else (JsString.or_undefined s) "" = s.
Proof. now destruct s. Qed.

Lemma form_description_stored (d : string) :
  JsString.opt_or_else
    (option_map JsString.trim (JsString.or_undefined (JsString.trim d))) ""
  = JsString.trim d.
Proof.
  unfold JsString.or_undefined.
  destruct (JsString.truthy (JsString.trim d)) eqn:E; simpl.
  - rewrite trim_idem. apply or_else_empty.
  - now destruct (JsString.trim d).
Qed.

(** X18.  A submission of the form with a title that is not blank: when the
    backend resolves the creation, the new task heads the collection with
    the trimmed title (never empty) and the trimmed description, and the
    form is emptied and folded; when the backend rejects it, the form keeps
    what the user typed and the collection stays as it is. *)
Theorem form_submit_outcome (f : AddToDoForm.Form) (s : Index.System) :
  JsString.trim (AddToDoForm.title f) <> "" ->
  let input :=
    CreateTodoInput.mk
      (JsString.trim (AddToDoForm.title f))
      (JsString.or_undefined (JsString.trim (AddToDoForm.description f))) in
  let after := AddToDoForm.handleSubmit Index.handleCreateTodo f s in
  (forall response,
     fst (TodoApi.createTodo input (Index.backend s)) = Resolved response ->
     fst after = AddToDoForm.mkForm "" "" false
     /\ Index.todos (Index.page (snd after))
        = data response :: Index.todos (Index.page s)
     /\ title (data response) = JsString.trim (AddToDoForm.title f)
     /\ title (data response) <> ""
     /\ description (data response)
        = Some (JsString.trim (AddToDoForm.description f)))
  /\ (forall e,
        fst (TodoApi.createTodo input (Index.backend s)) = Rejected e ->
        fst after = f
        /\ Index.todos (Index.page (snd after)) = Index.todos (Index.page s)).
Proof.
  intros Hne input after. subst after. unfold AddToDoForm.handleSubmit.
  apply truthy_nonempty in Hne. rewrite Hne. simpl. fold input.
  rewrite handleCreateTodo_eq; cbv zeta. rewrite createTodo_eq.
  destruct (fires _); simpl; split; intros r H; try discriminate.
  - split; reflexivity.
  - injection H as <-. simpl.
    split; [reflexivity|]. split; [reflexivity|].
    rewrite trim_idem. split; [reflexivity|].
    split; [now apply truthy_nonempty|].
    f_equal. apply form_description_stored.
Qed.

Lemma form_submit_outcome_witness :
  let w := mkWorld [] (fun _ => 1 # 2) 0 (fun _ => 1750000000000) 0 [] in
  let s := Index.mkSystem (Index.mkState [] ALL Index.notLoading false []) w in
  let f := AddToDoForm.mkForm " Buy milk " "   " true in
  JsString.trim (AddToDoForm.title f) <> ""
  /\ AddToDoForm.handleSubmit Index.handleCreateTodo f s
     = (AddToDoForm.mkForm "" "" false,
        snd (AddToDoForm.handleSubmit Index.handleCreateTodo f s))
  /\ map title (Index.todos (Index.page
        (snd (AddToDoForm.handleSubmit Index.handleCreateTodo f s))))
     = ["Buy milk"].
Proof.
  intros w s f.
  assert (H : JsString.trim (AddToDoForm.title f) <> "") by discriminate.
  split; [exact H|]. split; [|reflexivity].
  pose proof (proj1 (proj1 (form_submit_outcome f s H)
                       (mkResponse
                          (newTodoIn w
                             (CreateTodoInput.mk "Buy milk" None))
                          "Todo created successfully" true) eq_refl)) as E.
  destruct (AddToDoForm.handleSubmit Index.handleCreateTodo f s) as [f' s'].
  simpl in E. now rewrite E.
Defined.

(* ------------------------------------------------------------------ *)
(** ** The item component *)

Lemma findIndex_app_first {A} (p : A -> bool) (l1 l2 : list A) (x : A) :
  (forall y, In y l1 -> p y = false) -> p x = true ->
  JsArray.findIndex p (l1 ++ x :: l2) = Some (List.length l1).
Proof.
  intros Hl1 Hx. induction l1 as [|a l1 IH]; simpl; [now rewrite Hx|].
  rewrite (Hl1 a (or_introl eq_refl)), IH; [reflexivity|].
  intros y Hy. apply Hl1. now right.
Qed.

(** The store and the returned task after a resolved update of the task
    that the store holds under the identifier. *)
Lemma updateTodo_resolved
  (w : World) (T : Todo) (input : UpdateTodoInput.t)
  (response : ApiResponse Todo) :
  (forall B, In B (mockTodos w) -> id B = id T -> B = T) ->
  fst (TodoApi.updateTodo (id T) input w) = Resolved response ->
  data response = TodoApi.spread T input (clock w (clockRead w))
  /\ clock (snd (TodoApi.updateTodo (id T) input w)) = clock w
  /\ clockRead (snd (TodoApi.updateTodo (id T) input w)) = S (clockRead w)
  /\ exists l1 l2,
       mockTodos w = (l1 ++ T :: l2)%list
       /\ (forall y, In y l1 -> id y <> id T)
       /\ mockTodos (snd (TodoApi.updateTodo (id T) input w))
          = (l1 ++ data response :: l2)%list.
Proof.
  intros Hsync. rewrite updateTodo_eq.
  destruct (fires w); simpl; [discriminate|].
  destruct (JsArray.findIndex _ _) as [i|] eqn:Ei; simpl; [|discriminate].
  intros [= <-]. simpl.
  set (d := mkTodo "" "" None false 0 0).
  destruct (findIndex_Some _ _ i d Ei) as (Hlt & Hp & _).
  assert (Hnth : nth i (mockTodos w) d = T).
  { apply Hsync; [now apply nth_In | now apply String.eqb_eq]. }
  rewrite Hnth. split; [reflexivity|]. split; [reflexivity|].
  split; [reflexivity|].
  destruct (findIndex_assign _ _ _
              (TodoApi.spread T input (clock w (clockRead w))) Ei)
    as (l1 & x & l2 & E & Hx & Hl1 & Ha & _).
  assert (x = T) as ->.
  { apply Hsync; [rewrite E; apply in_or_app; right; now left|].
    now apply String.eqb_eq. }
  exists l1, l2. split; [exact E|]. split; [|exact Ha].
  intros y Hy. apply String.eqb_neq. now apply Hl1.
Qed.

(** X19.  Ticking the checkbox of a task that the page and the backend agree on:
    when the update is resolved, the task in the collection has its
    [completed] flag inverted and its title, description and creation date
    as before, and no notification is shown.  While the item is loading the
    checkbox does nothing. *)
Theorem toggle_flips_completed
  (s : Index.System) (T : Todo) (response : ApiResponse Todo) :
  (forall onUpdate, ToDoItem.handleToggleComplete onUpdate T true s = s)
  /\ ((forall B, In B (mockTodos (Index.backend s)) -> id B = id T -> B = T) ->
      fst (TodoApi.updateTodo (id T) (ToDoItem.toggleInput T) (Index.backend s))
        = Resolved response ->
      let s' := ToDoItem.handleToggleComplete Index.handleUpdateTodo T false s in
      data response
        = mkTodo (id T) (title T) (description T) (negb (completed T))
                 (createdAt T)
                 (clock (Index.backend s) (clockRead (Index.backend s)))
      /\ Index.todos (Index.page s')
         = map (fun todo => if hasId (id T) todo then data response else todo)
               (Index.todos (Index.page s))
      /\ Index.toasts (Index.page s') = Index.toasts (Index.page s)).
Proof.
  split; [reflexivity|].
  intros Hsync H s'. subst s'.
  destruct (updateTodo_resolved _ T _ _ Hsync H) as (Hd & _).
  unfold ToDoItem.handleToggleComplete.
  rewrite handleUpdateTodo_eq; cbv zeta.
  destruct (TodoApi.updateTodo _ _ _) as [[r|e] w']; simpl in *;
    [|discriminate].
  injection H as ->. split; [exact Hd|]. split; reflexivity.
Qed.

Lemma toggle_flips_completed_witness :
  let T := mkTodo "7" "A" (Some "x") false 1000 1000 in
  let w := mkWorld [T] (fun _ => 1 # 2) 0 (fun _ => 2000) 0 [] in
  let s := Index.mkSystem (Index.mkState [T] ALL Index.notLoading false []) w in
  Index.todos (Index.page
     (ToDoItem.handleToggleComplete Index.handleUpdateTodo T false s))
  = [mkTodo "7" "A" (Some "x") true 1000 2000]
  /\ Index.toasts (Index.page
       (ToDoItem.handleToggleComplete Index.handleUpdateTodo T false s)) = [].
Proof.
  intros T w s. split; [reflexivity|].
  assert (Hsync : forall B, In B (mockTodos (Index.backend s)) ->
                            id B = id T -> B = T).
  { intros B [<-|[]] _. reflexivity. }
  exact (proj2 (proj2 (proj2 (toggle_flips_completed s T
                  (mkResponse (mkTodo "7" "A" (Some "x") true 1000 2000)
                              "Todo updated successfully" true))
                  Hsync eq_refl))).
Defined.

Lemma updateTodo_at (w : World) (id0 : string) (input : UpdateTodoInput.t)
  (l1 l2 : list Todo) (x : Todo) :
  mockTodos w = (l1 ++ x :: l2)%list ->
  (forall y, In y l1 -> id y <> id0) -> id x = id0 ->
  fires w = false ->
  fst (TodoApi.updateTodo id0 input w)
  = Resolved (mkResponse (TodoApi.spread x input (clock w (clockRead w)))
                         "Todo updated successfully" true)
  /\ mockTodos (snd (TodoApi.updateTodo id0 input w))
     = (l1 ++ TodoApi.spread x input (clock w (clockRead w)) :: l2)%list
  /\ clock (snd (TodoApi.updateTodo id0 input w)) = clock w
  /\ clockRead (snd (TodoApi.updateTodo id0 input w)) = S (clockRead w).
Proof.
  intros E Hl1 Hx Hf. rewrite updateTodo_eq, Hf, E.
  rewrite (findIndex_app_first _ l1 l2 x).
  - simpl. rewrite app_nth2, Nat.sub_diag by lia. simpl.
    rewrite assign_split. repeat split.
  - intros y Hy. apply String.eqb_neq. now apply Hl1.
  - now apply String.eqb_eq.
Qed.

Lemma handleUpdateTodo_backend (id0 : string) (input : UpdateTodoInput.t)
  (s : Index.System) :
  Index.backend (snd (Index.handleUpdateTodo id0 input s))
  = snd (TodoApi.updateTodo id0 input (Index.backend s)).
Proof.
  rewrite handleUpdateTodo_eq; cbv zeta.
  now destruct (TodoApi.updateTodo _ _ _) as [[r|e] w'].
Qed.

Lemma handleUpdateTodo_todos (id0 : string) (input : UpdateTodoInput.t)
  (s : Index.System) (response : ApiResponse Todo) :
  fst (TodoApi.updateTodo id0 input (Index.backend s)) = Resolved response ->
  Index.todos (Index.page (snd (Index.handleUpdateTodo id0 input s)))
  = map (fun todo => if String.eqb (id todo) id0 then data response else todo)
        (Index.todos (Index.page s)).
Proof.
  rewrite handleUpdateTodo_eq; cbv zeta.
  destruct (TodoApi.updateTodo _ _ _) as [[r|e] w']; simpl;
    [now intros [= ->] | discriminate].
Qed.

(** X20.  Ticking the checkbox twice brings the task back: when both updates are
    resolved, the task in the collection and in the store is the one from
    before the first tick, except for [updatedAt], which is the reading of
    the clock at the second update; no other task has changed. *)
Theorem toggle_twice_restores
  (s : Index.System) (T : Todo) (r1 r2 : ApiResponse Todo) :
  (forall B, In B (mockTodos (Index.backend s)) -> id B = id T -> B = T) ->
  fst (TodoApi.updateTodo (id T) (ToDoItem.toggleInput T) (Index.backend s))
    = Resolved r1 ->
  let s1 := ToDoItem.handleToggleComplete Index.handleUpdateTodo T false s in
  fst (TodoApi.updateTodo (id T) (ToDoItem.toggleInput (data r1))
                          (Index.backend s1)) = Resolved r2 ->
  let s2 :=
    ToDoItem.handleToggleComplete Index.handleUpdateTodo (data r1) false s1 in
  data r2
    = mkTodo (id T) (title T) (description T) (completed T) (createdAt T)
             (clock (Index.backend s) (S (clockRead (Index.backend s))))
  /\ Index.todos (Index.page s2)
     = map (fun todo => if hasId (id T) todo then data r2 else todo)
           (Index.todos (Index.page s))
  /\ exists l1 l2,
       mockTodos (Index.backend s) = (l1 ++ T :: l2)%list
       /\ mockTodos (Index.backend s2) = (l1 ++ data r2 :: l2)%list.
Proof.
  intros Hsync H1 s1 H2 s2.
  destruct (updateTodo_resolved _ T _ _ Hsync H1)
    as (Hd1 & Hc1 & Hk1 & l1 & l2 & E & Hl1 & E1).
  assert (Hid1 : id (data r1) = id T) by now rewrite Hd1.
  assert (Hb1 : Index.backend s1
                = snd (TodoApi.updateTodo (id T) (ToDoItem.toggleInput T)
                                          (Index.backend s)))
    by apply handleUpdateTodo_backend.
  assert (Hf2 : fires (Index.backend s1) = false).
  { rewrite updateTodo_eq in H2. now destruct (fires (Index.backend s1)). }
  rewrite Hb1 in H2, Hf2.
  destruct (updateTodo_at _ (id T) (ToDoItem.toggleInput (data r1))
              l1 l2 (data r1) E1 Hl1 Hid1 Hf2) as (Hr2 & E2 & _).
  assert (HT2 : TodoApi.spread (data r1) (ToDoItem.toggleInput (data r1))
                  (clock (snd (TodoApi.updateTodo (id T)
                                 (ToDoItem.toggleInput T) (Index.backend s)))
                     (clockRead
                        (snd (TodoApi.updateTodo (id T)
                                (ToDoItem.toggleInput T) (Index.backend s)))))
                = mkTodo (id T) (title T) (description T) (completed T)
                    (createdAt T)
                    (clock (Index.backend s)
                           (S (clockRead (Index.backend s))))).
  { rewrite Hc1, Hk1, Hd1. unfold TodoApi.spread, ToDoItem.toggleInput.
    simpl. now rewrite negb_involutive. }
  rewrite HT2 in Hr2, E2.
  rewrite Hr2 in H2. injection H2 as <-. simpl.
  split; [reflexivity|].
  split.
  - subst s2. unfold ToDoItem.handleToggleComplete at 1. rewrite Hid1.
    rewrite (handleUpdateTodo_todos _ _ s1 _
               ltac:(rewrite Hb1; exact Hr2)).
    subst s1. unfold ToDoItem.handleToggleComplete.
    rewrite (handleUpdateTodo_todos _ _ s _ H1), map_map.
    apply map_ext. intros a. unfold hasId. simpl.
    destruct (String.eqb (id a) (id T)) eqn:Ea; simpl.
    + now rewrite Hid1, String.eqb_refl.
    + now rewrite Ea.
  - exists l1, l2. split; [exact E|].
    subst s2. unfold ToDoItem.handleToggleComplete at 1.
    now rewrite handleUpdateTodo_backend, Hid1, Hb1, E2.
Qed.

Lemma toggle_twice_restores_witness :
  let T := mkTodo "7" "A" (Some "x") false 1000 1000 in
  let U := mkTodo "8" "B" None true 900 900 in
  let w := mkWorld [U; T] (fun _ => 1 # 2) 0
                   (fun n => 2000 + Z.of_nat n) 0 [] in
  let s := Index.mkSystem (Index.mkState [T; U] ALL Index.notLoading false []) w in
  let s1 := ToDoItem.handleToggleComplete Index.handleUpdateTodo T false s in
  let T1 := mkTodo "7" "A" (Some "x") true 1000 2000 in
  let s2 := ToDoItem.handleToggleComplete Index.handleUpdateTodo T1 false s1 in
  Index.todos (Index.page s1) = [T1; U]
  /\ Index.todos (Index.page s2)
     = [mkTodo "7" "A" (Some "x") false 1000 2001; U].
Proof.
  intros T U w s s1 T1 s2. split; [reflexivity|].
  assert (Hsync : forall B, In B (mockTodos (Index.backend s)) ->
                            id B = id T -> B = T).
  { intros B [<-|[<-|[]]] E; [discriminate E|reflexivity]. }
  exact (proj1 (proj2 (toggle_twice_restores s T
                  (mkResponse T1 "Todo updated successfully" true)
                  (mkResponse (mkTodo "7" "A" (Some "x") false 1000 2001)
                              "Todo updated successfully" true)
                  Hsync eq_refl eq_refl))).
Defined.

(** X21.  Saving an edit.  With a blank title nothing is sent.  Otherwise, for a
    task that the page and the backend agree on: when the update is
    resolved, the editor is closed, the task carries the trimmed title and
    the trimmed description (no description at all when the field was left
    blank), its [completed] flag and creation date are as before, and
    opening the editor again shows the trimmed texts; when the update is
    rejected, the editor stays open with what the user typed and the
    collection is as it was. *)
Theorem save_edit_outcome
  (s : Index.System) (T : Todo) (e : ToDoItem.EditState) :
  (JsString.trim (ToDoItem.editTitle e) = "" ->
   forall onUpdate, ToDoItem.handleSaveEdit onUpdate T e s = (e, s))
  /\ (JsString.trim (ToDoItem.editTitle e) <> "" ->
      (forall B, In B (mockTodos (Index.backend s)) -> id B = id T -> B = T) ->
      let input := ToDoItem.saveEditInput (ToDoItem.editTitle e)
                                          (ToDoItem.editDescription e) in
      let after := ToDoItem.handleSaveEdit Index.handleUpdateTodo T e s in
      (forall response,
         fst (TodoApi.updateTodo (id T) input (Index.backend s))
           = Resolved response ->
         ToDoItem.isEditing (fst after) = false
         /\ data response
            = mkTodo (id T) (JsString.trim (ToDoItem.editTitle e))
                (JsString.or_undefined
                   (JsString.trim (ToDoItem.editDescription e)))
                (completed T) (createdAt T)
                (clock (Index.backend s) (clockRead (Index.backend s)))
         /\ Index.todos (Index.page (snd after))
            = map (fun todo => if hasId (id T) todo then data response
                               else todo)
                  (Index.todos (Index.page s))
         /\ ToDoItem.handleEdit (data response) (fst after)
            = ToDoItem.mkEdit true
                (JsString.trim (ToDoItem.editTitle e))
                (JsString.trim (ToDoItem.editDescription e)))
      /\ (forall err,
            fst (TodoApi.updateTodo (id T) input (Index.backend s))
              = Rejected err ->
            fst after = e
            /\ Index.todos (Index.page (snd after))
               = Index.todos (Index.page s))).
Proof.
  split.
  - intros H onUpdate. unfold ToDoItem.handleSaveEdit.
    apply trim_blank_falsy in H. now rewrite H.
  - intros Hne Hsync input after. subst after.
    unfold ToDoItem.handleSaveEdit.
    apply truthy_nonempty in Hne. rewrite Hne. simpl. fold input.
    split.
    + intros response H.
      destruct (updateTodo_resolved _ T _ _ Hsync H) as (Hd & _).
      pose proof (handleUpdateTodo_todos _ _ s _ H) as Ht.
      rewrite handleUpdateTodo_eq in *; cbv zeta in *.
      destruct (TodoApi.updateTodo _ _ _) as [[r|err] w']; simpl in *;
        [|discriminate].
      injection H as ->. split; [reflexivity|]. split; [exact Hd|].
      split; [exact Ht|].
      rewrite Hd. unfold ToDoItem.handleEdit. simpl.
      now rewrite or_undefined_or_else.
    + intros err H. rewrite handleUpdateTodo_eq; cbv zeta.
      destruct (TodoApi.updateTodo _ _ _) as [[r|err'] w']; simpl in *;
        [discriminate|]. split; reflexivity.
Qed.

Lemma save_edit_outcome_witness :
  let T := mkTodo "7" "A" (Some "old") false 1000 1000 in
  let w := mkWorld [T] (fun _ => 1 # 2) 0 (fun _ => 2000) 0 [] in
  let s := Index.mkSystem (Index.mkState [T] ALL Index.notLoading false []) w in
  let e := ToDoItem.mkEdit true " B " "  " in
  JsString.trim (ToDoItem.editTitle e) <> ""
  /\ Index.todos (Index.page
       (snd (ToDoItem.handleSaveEdit Index.handleUpdateTodo T e s)))
     = [mkTodo "7" "B" None false 1000 2000]
  /\ ToDoItem.isEditing
       (fst (ToDoItem.handleSaveEdit Index.handleUpdateTodo T e s)) = false.
Proof.
  intros T w s e.
  assert (Hne : JsString.trim (ToDoItem.editTitle e) <> "") by discriminate.
  assert (Hsync : forall B, In B (mockTodos (Index.backend s)) ->
                            id B = id T -> B = T).
  { intros B [<-|[]] _. reflexivity. }
  split; [exact Hne|]. split; [reflexivity|].
  exact (proj1 (proj1 (proj2 (save_edit_outcome s T e) Hne Hsync)
                  (mkResponse (mkTodo "7" "B" None false 1000 2000)
                              "Todo updated successfully" true) eq_refl)).
Defined.
